(** * micro-cc: the agent tool-execution loop, its transcript store,
      plan tracker and context budgeter.

    A shallow embedding of [claude_loop_.py], [utils/msg_store_.py],
    [tools/plan_tools_.py], [execute_tool.py] and [cache/redis_cache.py],
    followed by the properties the specification states about them. *)

From Stdlib Require Import ZArith String Ascii List Lia Permutation.
From stdpp Require Import base option list strings gmap.

Import ListNotations.
Set Warnings "-register-all".
Local Open Scope string_scope.
Local Open Scope Z_scope.
Local Open Scope list_scope.

(** ** Python values that travel through [json.dumps] / [json.loads] *)

Inductive json : Type :=
| JNull
| JBool (b : bool)
| JNum (n : Z)
| JStr (s : string)
| JArr (l : list json)
| JObj (kv : list (string * json)).

(** [d.get(k)] on a dict kept as an association list. *)
Fixpoint dict_get (k : string) (kv : list (string * json)) : option json :=
  match kv with
  | [] => None
  | (k', v) :: rest => if String.eqb k k' then Some v else dict_get k rest
  end.

(** [k in d] on a dict. *)
Definition dict_has (k : string) (kv : list (string * json)) : bool :=
  match dict_get k kv with Some _ => true | None => false end.

(** [x == "s"] for a value that may be absent ([None]). *)
Definition is_str (o : option json) (s : string) : bool :=
  match o with
  | Some (JStr t) => String.eqb t s
  | _ => false
  end.

(** Python truthiness of a JSON value. *)
Definition truthy (j : json) : bool :=
  match j with
  | JNull => false
  | JBool b => b
  | JNum n => negb (n =? 0)
  | JStr s => negb (String.eqb s "")
  | JArr l => match l with [] => false | _ => true end
  | JObj kv => match kv with [] => false | _ => true end
  end.

(** Truthiness of an optional string argument ([None] and [""] are falsy). *)
Definition str_truthy (o : option string) : bool :=
  match o with
  | Some s => negb (String.eqb s "")
  | None => false
  end.

Definition nl : string := String (ascii_of_nat 10) EmptyString.

(** ** Plan tracker: [tools/plan_tools_.py] over [cache/redis_cache.py] *)

Module Plan.

(** The dict built by [make_plan]; every stored plan has exactly these keys. *)
Record Plan : Type := mkPlan {
  title : json;
  context : json;
  steps : list json;
  step_statuses : list string;
  step_findings : list string;
  current_step_index : Z;
  created_at : Z
}.

(** An entry of [RedisStateManager._store]: value and expiry timestamp.
    The value is the plan itself: the code stores [json.dumps(plan)] and
    reads it back with [json.loads]. *)
Record Entry : Type := mkEntry { value : Plan; expiry : Z }.

Abbreviation Store := (gmap string Entry).

Definition app_name : string := "micro_cc".

(** [_make_key("plan", project_dir)] *)
Definition _make_key (project_dir : string) : string :=
  app_name +:+ ":plan:" +:+ project_dir.

(** [_set_with_ttl(key, value, ttl)] at clock reading [now]. *)
Definition _set_with_ttl (now : Z) (key : string) (v : Plan) (ttl : Z)
    (st : Store) : Store :=
  <[key := mkEntry v (now + ttl)]> st.

(** [_get(key)]: an expired entry is deleted and reads as absent. *)
Definition _get (now : Z) (key : string) (st : Store) : Store * option Plan :=
  match st !! key with
  | None => (st, None)
  | Some e =>
      if now >? expiry e then (delete key st, None)
      else (st, Some (value e))
  end.

Definition set_plan (now : Z) (project_dir : string) (p : Plan) (st : Store)
    : Store :=
  _set_with_ttl now (_make_key project_dir) p 3600 st.

Definition get_plan (now : Z) (project_dir : string) (st : Store)
    : Store * option Plan :=
  _get now (_make_key project_dir) st.

(** What a plan tool hands back.  The success texts are kept as
    constructors carrying the values interpolated into them; [Raised] is an
    exception leaving the tool. *)
Inductive Reply : Type :=
| ErrorText (msg : string)
| BadStepIndex (got : string)
| InvalidIndex (i : Z) (hi : Z)
| PlanCreated (p : Plan) (replaced : bool)
| StepUpdated (i : Z)
| StepAdded (desc : string) (total : nat) (current : Z)
| Raised.

Definition reports_success (r : Reply) : bool :=
  match r with
  | PlanCreated _ _ | StepUpdated _ | StepAdded _ _ _ => true
  | _ => false
  end.

(** [k in plan_data] for whatever [json.loads] produced; [None] is the
    [TypeError] of a non-container. *)
Definition py_in (k : string) (j : json) : option bool :=
  match j with
  | JObj kv => Some (dict_has k kv)
  | JArr l => Some (existsb (fun x => is_str (Some x) k) l)
  | JStr s => Some (match index 0 k s with Some _ => true | None => false end)
  | _ => None
  end.

Definition valid_statuses : list string :=
  ["not_started"; "in_progress"; "completed"; "blocked"].

Definition status_valid (s : string) : bool :=
  existsb (String.eqb s) valid_statuses.

(** [l[i] = x] for a Python list: [None] is the [IndexError]. *)
Definition list_assign {A} (l : list A) (i : Z) (x : A) : option (list A) :=
  if (0 <=? i) && (i <? Z.of_nat (length l))
  then Some (<[Z.to_nat i := x]> l)
  else None.

(** The step index argument as the model may send it. *)
Inductive StepArg : Type :=
| IntArg (i : Z)
| StrArg (s : string).

Section Tools.

(** [json.loads] and [int(str)] of the Python runtime. *)
Variable json_loads : string -> option json.
Variable int_of_str : string -> option Z.

Definition make_plan (now : Z) (content : string) (project_path : string)
    (st : Store) : Store * Reply :=
  if String.eqb content "" then (st, ErrorText "Error: Content cannot be empty")
  else
    match json_loads content with
    | None => (st, ErrorText "Error: Invalid JSON format")
    | Some plan_data =>
        match py_in "title" plan_data, py_in "steps" plan_data with
        | None, _ => (st, Raised)
        | Some false, _ | Some true, Some false =>
            (st, ErrorText "Error: Plan must have 'title' and 'steps' fields")
        | Some true, None => (st, Raised)
        | Some true, Some true =>
            match plan_data with
            | JObj kv =>
                match dict_get "steps" kv with
                | Some (JArr (s :: ss)) =>
                    let stps := s :: ss in
                    let structured_plan := {|
                      title := default JNull (dict_get "title" kv);
                      context := default (JStr "") (dict_get "context" kv);
                      steps := stps;
                      step_statuses := replicate (length stps) "not_started";
                      step_findings := replicate (length stps) "";
                      current_step_index := 0;
                      created_at := now |} in
                    let '(st1, prev_plan) := get_plan now project_path st in
                    let st2 := set_plan now project_path structured_plan st1 in
                    (st2, PlanCreated structured_plan
                            (match prev_plan with Some _ => true | None => false end))
                | _ => (st, ErrorText "Error: Steps must be a non-empty list")
                end
            | _ => (st, Raised)
            end
        end
    end.

(** Lines 86-93 of [update_step]: the step a call addresses.  An omitted
    index means the current step, a string is converted with [int]; [inr] is
    the [ValueError] of that conversion. *)
Definition resolve_step_index (step_index : option StepArg) (plan : Plan)
    : Z + string :=
  match step_index with
  | None => inl (current_step_index plan)
  | Some (IntArg i) => inl i
  | Some (StrArg s) =>
      match int_of_str s with
      | Some i => inl i
      | None => inr s
      end
  end.

Definition update_step (now : Z) (step_index : option StepArg)
    (status findings : option string) (project_path : string) (st : Store)
    : Store * Reply :=
  match get_plan now project_path st with
  | (st1, None) => (st1, ErrorText "Error: No plan exists. Create a plan first.")
  | (st1, Some plan) =>
      match resolve_step_index step_index plan with
      | inr s => (st1, BadStepIndex s)
      | inl i =>
          let n := Z.of_nat (length (steps plan)) in
          if (i <? 0) || (i >=? n) then (st1, InvalidIndex i (n - 1))
          else
            let after_status :=
              if str_truthy status then
                let s := default "" status in
                if negb (status_valid s) then
                  inr (ErrorText "Error: Invalid status. Use: not_started, in_progress, completed, blocked")
                else
                  match list_assign (step_statuses plan) i s with
                  | None => inr Raised
                  | Some statuses' =>
                      let cur :=
                        if String.eqb s "completed" && (i =? current_step_index plan)
                        then
                          let next_step := i + 1 in
                          if next_step <? n then next_step else n
                        else current_step_index plan in
                      inl {| title := title plan; context := context plan;
                             steps := steps plan;
                             step_statuses := statuses';
                             step_findings := step_findings plan;
                             current_step_index := cur;
                             created_at := created_at plan |}
                  end
              else inl plan in
            match after_status with
            | inr r => (st1, r)
            | inl plan1 =>
                let after_findings :=
                  if str_truthy findings then
                    match list_assign (step_findings plan1) i (default "" findings) with
                    | None => None
                    | Some findings' =>
                        Some {| title := title plan1; context := context plan1;
                                steps := steps plan1;
                                step_statuses := step_statuses plan1;
                                step_findings := findings';
                                current_step_index := current_step_index plan1;
                                created_at := created_at plan1 |}
                    end
                  else Some plan1 in
                match after_findings with
                | None => (st1, Raised)
                | Some plan2 => (set_plan now project_path plan2 st1, StepUpdated i)
                end
            end
      end
  end.

Definition add_step (now : Z) (step_description : string)
    (project_path : string) (st : Store) : Store * Reply :=
  match get_plan now project_path st with
  | (st1, None) => (st1, ErrorText "Error: No plan exists. Create a plan first.")
  | (st1, Some plan) =>
      let plan' := {|
        title := title plan; context := context plan;
        steps := steps plan ++ [JStr step_description];
        step_statuses := step_statuses plan ++ ["not_started"];
        step_findings := step_findings plan ++ [""];
        current_step_index := current_step_index plan;
        created_at := created_at plan |} in
      (set_plan now project_path plan' st1,
       StepAdded step_description (length (steps plan'))
                 (current_step_index plan' + 1))
  end.

(** One plan-tool invocation, stamped with the clock reading it runs at. *)
Inductive Op : Type :=
| MakePlan (now : Z) (content project_path : string)
| UpdateStep (now : Z) (step_index : option StepArg)
    (status findings : option string) (project_path : string)
| AddStep (now : Z) (step_description project_path : string).

Definition exec (op : Op) (st : Store) : Store * Reply :=
  match op with
  | MakePlan now c p => make_plan now c p st
  | UpdateStep now i s f p => update_step now i s f p st
  | AddStep now d p => add_step now d p st
  end.

Definition op_time (op : Op) : Z :=
  match op with
  | MakePlan now _ _ | UpdateStep now _ _ _ _ | AddStep now _ _ => now
  end.

Definition op_project (op : Op) : string :=
  match op with
  | MakePlan _ _ p | UpdateStep _ _ _ _ p | AddStep _ _ p => p
  end.

(** The store after a sequence of tool calls, starting from [st]. *)
Definition run (ops : list Op) (st : Store) : Store :=
  fold_left (fun s op => fst (exec op s)) ops st.

End Tools.

(** The synchronisation invariant of the three per-step arrays. *)
Definition lengths_ok (p : Plan) : Prop :=
  length (steps p) = length (step_statuses p) /\
  length (step_statuses p) = length (step_findings p).

Definition store_ok (st : Store) : Prop :=
  forall k e, st !! k = Some e -> lengths_ok (value e).

End Plan.

(** Sample values for the plan tracker. *)
Module PlanExamples.
Import Plan.

Definition dq : string := String (ascii_of_nat 34) EmptyString.

(** The text [{"title": "T", "steps": ["A", "B"]}]. *)
Definition plan_AB_text : string :=
  "{" +:+ dq +:+ "title" +:+ dq +:+ ": " +:+ dq +:+ "T" +:+ dq +:+ ", "
      +:+ dq +:+ "steps" +:+ dq +:+ ": [" +:+ dq +:+ "A" +:+ dq +:+ ", "
      +:+ dq +:+ "B" +:+ dq +:+ "]}".

(** [json.loads] restricted to the one text used here. *)
Definition sample_loads (s : string) : option json :=
  if String.eqb s plan_AB_text
  then Some (JObj [("title", JStr "T"); ("steps", JArr [JStr "A"; JStr "B"])])
  else None.

Definition no_int (s : string) : option Z := None.

(** The store after [make_plan] of the text above at time 0, followed by an
    [update_step] recording findings for step 0. *)
Definition store_AB : Store :=
  run sample_loads no_int
    [MakePlan 0 plan_AB_text "proj";
     UpdateStep 1 (Some (IntArg 0)) (Some "in_progress") (Some "old") "proj"] ∅.

Definition plan_AB : Plan := {|
  title := JStr "T"; context := JStr "";
  steps := [JStr "A"; JStr "B"];
  step_statuses := ["in_progress"; "not_started"];
  step_findings := ["old"; ""];
  current_step_index := 0; created_at := 0 |}.

End PlanExamples.

(** ** Plan rendering helpers: [check_plan_completion] and
       [get_contextual_plan_reminder] of [tools/plan_tools_.py] *)

Module PlanView.
Import Plan.

(** [l[i]] for a Python list, negative indices counting from the end;
    [None] is the [IndexError]. *)
Definition py_index {A} (l : list A) (i : Z) : option A :=
  let n := Z.of_nat (length l) in
  if (0 <=? i) && (i <? n) then l !! Z.to_nat i
  else if (i <? 0) && (- n <=? i) then l !! Z.to_nat (n + i)
  else None.

(** [l[i:]] *)
Definition py_slice_from {A} (l : list A) (i : Z) : list A :=
  let n := Z.of_nat (length l) in
  if 0 <=? i then drop (Z.to_nat i) l
  else drop (Z.to_nat (Z.max 0 (n + i))) l.

(** [sum(1 for status in statuses if status == s)] *)
Definition count_status (s : string) (statuses : list string) : nat :=
  length (List.filter (String.eqb s) statuses).

(** [sum(1 for status in statuses if status != "completed")] *)
Definition count_open (statuses : list string) : nat :=
  length (List.filter (fun s => negb (String.eqb s "completed")) statuses).

(** [[i + 1 for i, status in enumerate(statuses) if status == "blocked"]],
    [k] being the position of the head of the list. *)
Fixpoint blocked_from (k : nat) (statuses : list string) : list nat :=
  match statuses with
  | [] => []
  | s :: rest =>
      if String.eqb s "blocked" then S k :: blocked_from (S k) rest
      else blocked_from (S k) rest
  end.

(** The message of [check_plan_completion], with the values it
    interpolates. *)
Inductive Completion : Type :=
| NoPlanExists
| InvalidStructure
| FullyCompleted (total : nat)
| HasBlocked (blocked : nat) (blocked_steps : list nat)
| PartlyComplete (completed total remaining : nat).

(** [check_plan_completion(plan)]; [None] is a falsy [plan]. *)
Definition check_plan_completion (plan : option Plan) : bool * Completion :=
  match plan with
  | None => (false, NoPlanExists)
  | Some plan =>
      let statuses := step_statuses plan in
      match statuses, steps plan with
      | [], _ | _, [] => (false, InvalidStructure)
      | _, _ =>
          let completed := count_status "completed" statuses in
          let blocked := count_status "blocked" statuses in
          let total := length statuses in
          if (completed =? total)%nat then (true, FullyCompleted total)
          else if (0 <? blocked)%nat
               then (false, HasBlocked blocked (blocked_from 0 statuses))
               else (false, PartlyComplete completed total (total - completed))
      end
  end.

(** The text of [get_contextual_plan_reminder], with the values it
    interpolates ([status] is shown upper-cased); [ReminderRaised] is an
    [IndexError]. *)
Inductive Reminder : Type :=
| EmptyReminder
| AllCompleted
| Focus (step_number : Z) (current_step : json) (status : string)
    (remaining : nat) (previous_findings : option string)
    (next_step : option json)
| ReminderRaised.

(** [get_contextual_plan_reminder(plan)] *)
Definition get_contextual_plan_reminder (plan : option Plan) : Reminder :=
  match plan with
  | None => EmptyReminder
  | Some plan =>
      let current_index := current_step_index plan in
      let n := Z.of_nat (length (steps plan)) in
      if current_index >=? n then AllCompleted
      else
        match py_index (steps plan) current_index,
              py_index (step_statuses plan) current_index,
              py_index (step_findings plan) current_index with
        | Some current_step, Some current_status, Some current_findings =>
            let remaining :=
              count_open (py_slice_from (step_statuses plan) current_index) in
            Focus (current_index + 1) current_step current_status remaining
                  (if String.eqb current_findings "" then None
                   else Some current_findings)
                  (if current_index + 1 <? n
                   then py_index (steps plan) (current_index + 1)
                   else None)
        | _, _, _ => ReminderRaised
        end
  end.

(** What holds of every plan the tools write, beyond the equal lengths. *)
Definition plan_wf (p : Plan) : Prop :=
  lengths_ok p /\
  0 <= current_step_index p <= Z.of_nat (length (steps p)) /\
  steps p <> [] /\
  Forall (fun s => status_valid s = true) (step_statuses p).

Definition store_wf (st : Store) : Prop :=
  forall k e, st !! k = Some e -> plan_wf (value e).

(** A plan whose first [c] steps are completed, the others untouched, and
    whose focus is on step [c]. *)
Definition progressed (c : nat) (p : Plan) : Prop :=
  let n := length (steps p) in
  (c <= n)%nat /\
  current_step_index p = Z.of_nat c /\
  step_statuses p = replicate c "completed" ++ replicate (n - c) "not_started" /\
  length (step_findings p) = n.

(** The calls [update_step(status="completed")] without a step index, one
    per clock reading. *)
Definition complete_current (project : string) (times : list Z) : list Op :=
  map (fun t => UpdateStep t None (Some "completed") None project) times.

(** Every call comes within the time to live of the write before it. *)
Fixpoint within_ttl (last_write : Z) (times : list Z) : Prop :=
  match times with
  | [] => True
  | t :: rest => t <= last_write + 3600 /\ within_ttl t rest
  end.

End PlanView.

(** ** Messages and blocks *)

(** A [tool_use] block of a model response. *)
Record ToolUse : Type := mkToolUse {
  tu_id : string;
  tu_name : string;
  tu_input : json
}.

(** Content blocks as the Anthropic SDK returns them: objects with a [type]
    attribute.  [OtherBlock] stands for every block type the code has no
    branch for. *)
Inductive SdkBlock : Type :=
| ThinkingBlock (thinking signature : string)
| TextBlock (text : string)
| ToolUseBlock (tu : ToolUse)
| ToolResultBlock (tool_use_id : string) (content : json)
| OtherBlock (type : string).

(** An element of a content list: an SDK object, or a plain value (a dict
    when it is a [JObj]). *)
Inductive Item : Type :=
| Sdk (b : SdkBlock)
| Val (j : json).

(** [msg.get("content")]: a plain value (string, list of dicts, [None], ...)
    or a list that may hold SDK objects. *)
Inductive Content : Type :=
| CJson (j : json)
| CItems (l : list Item).

(** A message dict; [role] is [msg.get("role")]. *)
Record Message : Type := mkMessage {
  role : json;
  content : Content
}.

(** ** Transcript store: [utils/msg_store_.py] *)

Module MsgStore.

(** One line of [messages.jsonl]. *)
Inductive Line : Type :=
| JsonLine (j : json)
| BlankLine
| MalformedLine (text : string).

(** The dict an SDK block is converted to; [None] when the block is skipped. *)
Definition normalize_sdk (b : SdkBlock) : option json :=
  match b with
  | ThinkingBlock _ _ => None
  | ToolUseBlock tu =>
      Some (JObj [("type", JStr "tool_use"); ("id", JStr (tu_id tu));
                  ("name", JStr (tu_name tu)); ("input", tu_input tu)])
  | TextBlock t => Some (JObj [("type", JStr "text"); ("text", JStr t)])
  | ToolResultBlock i c =>
      Some (JObj [("type", JStr "tool_result"); ("tool_use_id", JStr i);
                  ("content", c)])
  | OtherBlock _ => None
  end.

(** The body of the [for item in content] loop: what is appended to
    [normalized["content"]], if anything. *)
Definition normalize_item (it : Item) : option json :=
  match it with
  | Sdk b => normalize_sdk b
  | Val (JObj d) =>
      if is_str (dict_get "type" d) "thinking" then None else Some (JObj d)
  | Val _ => None
  end.

(** The list branch of [_normalize_message], with the final unwrapping of a
    single text block; [None] is the [KeyError] of [["text"]]. *)
Definition normalize_list (l : list Item) : option json :=
  let kept := omap normalize_item l in
  match kept with
  | [JObj d] =>
      if is_str (dict_get "type" d) "text" then dict_get "text" d
      else Some (JArr kept)
  | _ => Some (JArr kept)
  end.

(** [_normalize_message(msg)] at timestamp [ts]. *)
Definition _normalize_message (ts : string) (msg : Message) : option json :=
  let base := [("role", role msg); ("ts", JStr ts)] in
  match content msg with
  | CJson (JStr s) => Some (JObj (base ++ [("content", JStr s)]))
  | CJson (JArr l) =>
      c ← normalize_list (map Val l); Some (JObj (base ++ [("content", c)]))
  | CItems l =>
      c ← normalize_list l; Some (JObj (base ++ [("content", c)]))
  | CJson _ => Some (JObj base)
  end.

(** [_reconstruct_message(normalized)]; [None] when [normalized["role"]]
    raises. *)
Definition _reconstruct_message (normalized : json) : option Message :=
  match normalized with
  | JObj d =>
      r ← dict_get "role" d;
      Some {| role := r;
              content := CJson (default (JStr "") (dict_get "content" d)) |}
  | _ => None
  end.

(** [store_msgs]: the lines written after the file is truncated, and
    whether the loop ran to its end ([false]: [_normalize_message] raised,
    the file keeps the lines written so far). *)
Fixpoint store_msgs (ts : string) (msgs : list Message) : list Line * bool :=
  match msgs with
  | [] => ([], true)
  | msg :: rest =>
      match _normalize_message ts msg with
      | None => ([], false)
      | Some normalized =>
          let '(lines, ok) := store_msgs ts rest in
          (JsonLine normalized :: lines, ok)
      end
  end.

(** The loop of [load_msgs] over the lines of an existing file. *)
Fixpoint load_lines (lines : list Line) : option (list Message) :=
  match lines with
  | [] => Some []
  | JsonLine j :: rest =>
      m ← _reconstruct_message j; ms ← load_lines rest; Some (m :: ms)
  | BlankLine :: rest | MalformedLine _ :: rest => load_lines rest
  end.

(** [load_msgs]; the file is [None] when it does not exist. *)
Definition load_msgs (file : option (list Line)) : option (list Message) :=
  match file with
  | None => Some []
  | Some lines => load_lines lines
  end.

(** *** The normal form the specification describes *)

(** The block an item stands for, as plain data. *)
Definition block_of (it : Item) : json :=
  match it with
  | Val j => j
  | Sdk (ThinkingBlock t sg) =>
      JObj [("type", JStr "thinking"); ("thinking", JStr t);
            ("signature", JStr sg)]
  | Sdk (TextBlock t) => JObj [("type", JStr "text"); ("text", JStr t)]
  | Sdk (ToolUseBlock tu) =>
      JObj [("type", JStr "tool_use"); ("id", JStr (tu_id tu));
            ("name", JStr (tu_name tu)); ("input", tu_input tu)]
  | Sdk (ToolResultBlock i c) =>
      JObj [("type", JStr "tool_result"); ("tool_use_id", JStr i);
            ("content", c)]
  | Sdk (OtherBlock t) => JObj [("type", JStr t)]
  end.

Definition has_type (ty : string) (j : json) : bool :=
  match j with
  | JObj d => is_str (dict_get "type" d) ty
  | _ => false
  end.

(** A list consisting of a single text block becomes its text. *)
Definition unwrap_single_text (blocks : list json) : json :=
  match blocks with
  | [JObj d] =>
      if is_str (dict_get "type" d) "text"
      then default (JArr blocks) (dict_get "text" d)
      else JArr blocks
  | _ => JArr blocks
  end.

(** "H with thinking blocks removed from block-list contents and with any
    content list consisting of a single text block unwrapped to a plain
    string". *)
Definition strip_and_unwrap (m : Message) : Message :=
  let blocks :=
    match content m with
    | CJson (JArr l) => Some l
    | CItems l => Some (map block_of l)
    | CJson _ => None
    end in
  {| role := role m;
     content :=
       match blocks with
       | Some bs =>
           CJson (unwrap_single_text
                    (filter (fun b => has_type "thinking" b = false) bs))
       | None => content m
       end |}.

(** Messages of the data model: the content is plain text or a sequence of
    typed blocks (thinking, text, tool_use, tool_result), a text block
    carrying its text. *)
Definition block_ok (j : json) : Prop :=
  match j with
  | JObj d =>
      is_str (dict_get "type" d) "text" = true ->
      exists t, dict_get "text" d = Some (JStr t)
  | _ => False
  end.

Definition item_ok (it : Item) : Prop :=
  match it with
  | Sdk (OtherBlock _) => False
  | Sdk _ => True
  | Val j => block_ok j
  end.

Definition message_ok (m : Message) : Prop :=
  match content m with
  | CJson (JStr _) => True
  | CJson (JArr l) => Forall block_ok l
  | CItems l => Forall item_ok l
  | CJson _ => False
  end.

End MsgStore.

(** ** Context budgeter: [utils/tokenization.py] *)

Module Budget.

Definition is_system (m : Message) : bool := is_str (Some (role m)) "system".

(** The typed blocks of a message, as plain data. *)
Definition blocks_of (m : Message) : list json :=
  match content m with
  | CJson (JArr l) => l
  | CItems l => map MsgStore.block_of l
  | CJson _ => []
  end.

(** The string stored under [key] in the blocks of type [ty]. *)
Definition ids_of (ty key : string) (m : Message) : list string :=
  omap (fun b =>
          match b with
          | JObj d =>
              if is_str (dict_get "type" d) ty then
                match dict_get key d with
                | Some (JStr i) => Some i
                | _ => None
                end
              else None
          | _ => None
          end) (blocks_of m).

(** Capability requests are carried by assistant messages, capability
    results by user messages. *)
Definition request_ids (m : Message) : list string :=
  if is_str (Some (role m)) "assistant" then ids_of "tool_use" "id" m else [].

Definition result_ids (m : Message) : list string :=
  if is_str (Some (role m)) "user" then ids_of "tool_result" "tool_use_id" m
  else [].

(** [b] holds a result for a request of [a]. *)
Definition answers (b a : Message) : bool :=
  existsb (fun i => existsb (String.eqb i) (result_ids b)) (request_ids a).

(** [xs] holds no id that [ys] lacks. *)
Definition ids_within (xs ys : list string) : bool :=
  forallb (fun i => existsb (String.eqb i) ys) xs.

(** The pairing invariant of the data model (specification, section 3) on
    the histories [token_cutter] is given: every request is answered in the
    next message, and the results a message carries are those of the
    requests of the message before it.  [claude_loop] appends requests and
    results that way, as two consecutive messages.  [pending] holds the
    request ids of the message before [ms]. *)
Fixpoint turn_valid_from (pending : list string) (ms : list Message) : bool :=
  match ms with
  | [] => match pending with [] => true | _ => false end
  | m :: rest =>
      ids_within pending (result_ids m) && ids_within (result_ids m) pending
      && turn_valid_from (request_ids m) rest
  end.

Definition turn_valid (ms : list Message) : bool := turn_valid_from [] ms.

(** No request without its result and no result without its request. *)
Definition paired (ms : list Message) : Prop :=
  (forall a i, a ∈ ms -> i ∈ request_ids a ->
               exists b, b ∈ ms /\ i ∈ result_ids b) /\
  (forall b i, b ∈ ms -> i ∈ result_ids b ->
               exists a, a ∈ ms /\ i ∈ request_ids a).

(** The paired request/result units of a history: a request message
    together with the next message when that one answers it. *)
Fixpoint units (ms : list Message) : list (list Message) :=
  match ms with
  | [] => []
  | a :: rest =>
      match rest with
      | b :: rest' =>
          if answers b a then [a; b] :: units rest' else [a] :: units rest
      | [] => [[a]]
      end
  end.


Definition unit_is_system (u : list Message) : bool :=
  match u with
  | [m] => is_system m
  | _ => false
  end.

Section Trim.

(** The tokenizer: the encoded token count of one message. *)
Variable tokens : Message -> nat.

Definition count (ms : list Message) : Z :=
  Z.of_nat (sum_list_with tokens ms).

(** Drop the oldest non-system units until what is left fits. *)
Fixpoint trim_units (us : list (list Message)) (budget : Z)
    : list (list Message) :=
  match us with
  | [] => []
  | u :: rest =>
      if count (concat us) <=? budget then us
      else if unit_is_system u then u :: trim_units rest (budget - count u)
      else trim_units rest budget
  end.

(** Modelled from the spec: [token_cutter] of [utils/tokenization.py] is
    imported by [claude_loop_.py] but is not among the sources.  Following
    section 4.4: the oldest non-system messages are dropped first, system
    messages are always kept, dropping stops as soon as the count fits, and
    a request message is dropped or kept together with the message that
    answers it. *)
Definition token_cutter (messages : list Message) (budget : Z)
    : list Message :=
  concat (trim_units (units messages) budget).

End Trim.

(** Sample values: a system prompt that alone exceeds the budget. *)
Definition one_token_per_char (m : Message) : nat :=
  match content m with
  | CJson (JStr s) => String.length s
  | _ => 1%nat
  end.




End Budget.

(** ** The agent loop: [claude_loop_.py] and [execute_tool.py] *)

Module Loop.
Import MsgStore.

Definition DANGEROUS_TOOLS : list string := ["bash_"; "edit_"; "write_"].

(** The names of [default_tools]. *)
Definition default_tools : list string :=
  ["bash_"; "read_"; "write_"; "edit_"; "glob_"; "grep_"; "search_tools";
   "make_plan"; "update_step"; "show_full_plan"; "add_step";
   "read_skill"; "list_skills"].

Definition name_in (name : string) (names : list string) : bool :=
  existsb (String.eqb name) names.

Definition max_tokens : Z := 90000.

(** The dicts the generator yields. *)
Inductive Event : Type :=
| EvStatus (message : string)
| EvThinking (content : string)
| EvText (content : string)
| EvToolCall (name : string) (input : json)
| EvApprovalRequest (name : string) (input : json)
| EvCancelled
| EvToolResult (name : string) (output : string)
| EvFinalText (content : string)
| EvError (message : string)
| EvDone.

(** What the loop does that is visible from outside, in order. *)
Inductive Action : Type :=
| Yield (e : Event)
| ModelCall (input : list Message)
| Invoke (tb : ToolUse)
| StoreMsgs (msgs : list Message).

(** What [model_call] does: return a response or raise. *)
Inductive CallOutcome : Type :=
| Responded (content : list SdkBlock)
| Failed (exn_type exn_text : string).

(** What the surroundings supply during one iteration of [while True]. *)
Record Turn : Type := mkTurn {
  (** [watcher.format_changes()], empty without watcher or changes *)
  file_changes : string;
  (** [get_contextual_plan_reminder(plan)] when a plan is stored *)
  plan_reminder : option string;
  outcome : CallOutcome;
  (** the value found in [approval["approved"]] when the generator is
      resumed after the approval request for the local tool block at a
      position; [JNull] is the [None] the cell is created with *)
  decisions : nat -> json;
  (** what the tool bound to a block's name returns, or the error text
      [execute_tool_call] makes of its exception *)
  tool_return : ToolUse -> json;
  (** the order in which the gathered tasks finish, by position *)
  completion : list nat
}.

Record State : Type := mkState {
  msgs : list Message;
  transcript : option (list Line);
  trace : list Action
}.

Definition emit (acts : list Action) (st : State) : State :=
  {| msgs := msgs st; transcript := transcript st; trace := trace st ++ acts |}.

Definition append_msg (m : Message) (st : State) : State :=
  {| msgs := msgs st ++ [m]; transcript := transcript st; trace := trace st |}.

(** [next((block for block in response.content if block.type == ...), None)] *)
Fixpoint first_thinking (c : list SdkBlock) : option (string * string) :=
  match c with
  | [] => None
  | ThinkingBlock t sg :: _ => Some (t, sg)
  | _ :: rest => first_thinking rest
  end.

Fixpoint first_text (c : list SdkBlock) : option string :=
  match c with
  | [] => None
  | TextBlock t :: _ => Some t
  | _ :: rest => first_text rest
  end.

Definition tool_uses (c : list SdkBlock) : list ToolUse :=
  omap (fun b => match b with ToolUseBlock tu => Some tu | _ => None end) c.

(** The block dicts the loop appends to the history. *)
Definition thinking_dict (t sg : string) : json :=
  JObj [("type", JStr "thinking"); ("thinking", JStr t); ("signature", JStr sg)].

Definition tool_use_dict (tb : ToolUse) : json :=
  JObj [("type", JStr "tool_use"); ("id", JStr (tu_id tb));
        ("name", JStr (tu_name tb)); ("input", tu_input tb)].

Definition tool_result_dict (tb : ToolUse) (c : json) : json :=
  JObj [("type", JStr "tool_result"); ("tool_use_id", JStr (tu_id tb));
        ("content", c)].

Definition assistant_msg (c : json) : Message :=
  {| role := JStr "assistant"; content := CJson c |}.

Definition user_msg (c : json) : Message :=
  {| role := JStr "user"; content := CJson c |}.

Definition system_msg (c : string) : Message :=
  {| role := JStr "system"; content := CJson (JStr c) |}.

(** ["sep".join(l)] *)
Fixpoint join (sep : string) (l : list string) : string :=
  match l with
  | [] => ""
  | [x] => x
  | x :: rest => x +:+ sep +:+ join sep rest
  end.

(** [execute_tool_call(tool_block, tools, project_dir)] *)
Definition execute_tool_call (tools : list string) (ret : ToolUse -> json)
    (tb : ToolUse) : json :=
  if negb (name_in (tu_name tb) tools)
  then JStr ("Unknown tool: " +:+ tu_name tb)
  else ret tb.

(** Every gathered task that has finished has put its return value in the
    slot of its own position. *)
Definition finished (tasks : list ToolUse) (run : ToolUse -> json)
    (completion : list nat) : list (option json) :=
  foldl (fun slots i =>
           match tasks !! i with
           | Some tb => <[i := Some (run tb)]> slots
           | None => slots
           end)
        (replicate (length tasks) None) completion.

Fixpoint all_done (slots : list (option json)) : option (list json) :=
  match slots with
  | [] => Some []
  | Some r :: rest => cons r <$> all_done rest
  | None :: _ => None
  end.

(** [await asyncio.gather] over [tool_tasks]: the return values in the order of
    the tasks, once every task has finished; [None] while one has not. *)
Definition gather (tasks : list ToolUse) (run : ToolUse -> json)
    (completion : list nat) : option (list json) :=
  all_done (finished tasks run completion).

(** The tasks that ran, in the order they finished. *)
Definition invocations (tasks : list ToolUse) (completion : list nat)
    : list Action :=
  omap (fun i => Invoke <$> tasks !! i) completion.

(** The [for tool_use_block in local_tool_blocks] loop: the events yielded
    and whether it ran to its end ([false]: an approval cell was not truthy
    on resumption).  [k] is the position of the head of [blocks]. *)
Fixpoint approvals (ds : nat -> json) (k : nat) (blocks : list ToolUse)
    : list Action * bool :=
  match blocks with
  | [] => ([], true)
  | tb :: rest =>
      let call := Yield (EvToolCall (tu_name tb) (tu_input tb)) in
      if name_in (tu_name tb) DANGEROUS_TOOLS then
        let ask := Yield (EvApprovalRequest (tu_name tb) (tu_input tb)) in
        if truthy (ds k) then
          let '(acts, ok) := approvals ds (S k) rest in
          (call :: ask :: acts, ok)
        else ([call; ask], false)
      else
        let '(acts, ok) := approvals ds (S k) rest in
        (call :: acts, ok)
  end.

Section WithRuntime.

(** [token_cutter] with the module-level tokenizer. *)
Variable token_cutter : list Message -> Z -> list Message.
(** [str(x)] for a value that is not a string. *)
Variable py_repr : json -> string.
(** The text of the synthesized system prompt. *)
Variable system_prompt : string.
(** [datetime.datetime.now().isoformat()] *)
Variable now_iso : string.

Definition py_str (x : json) : string :=
  match x with
  | JStr s => s
  | _ => py_repr x
  end.

(** [str(result)[:500]] *)
Definition display_output (result : json) : string :=
  substring 0 500 (py_str result).

(** [str(result) if isinstance(result, dict) else (result or "")] *)
Definition result_content (result : json) : json :=
  match result with
  | JObj _ => JStr (py_str result)
  | _ => if truthy result then result else JStr ""
  end.

(** [store_msgs(project_dir, msgs)]: the file is rewritten; [false] when it
    raised. *)
Definition do_store (st : State) : State * bool :=
  let '(lines, ok) := store_msgs now_iso (msgs st) in
  ({| msgs := msgs st; transcript := Some lines;
      trace := trace st ++ [StoreMsgs (msgs st)] |}, ok).

(** The text of the [KeyError] raised by [_normalize_message]. *)
Definition store_error : string := "Error: KeyError: 'text'".

(** How the body of [while True] is left. *)
Inductive Step : Type :=
| Continue (st : State)
| BreakDone (st : State)
| BreakError (st : State)
| Return (st : State)
| Awaiting (st : State).

(** The reminder strings of one iteration. *)
Definition reminders (t : Turn) : list string :=
  (if String.eqb (file_changes t) "" then []
   else ["Files changed since last turn:" +:+ nl +:+ file_changes t])
  ++ match plan_reminder t with
     | Some r =>
         [r +:+ nl +:+ nl +:+ "Use 'update_step' after each research/work session."]
     | None => []
     end.

Definition trimmed_loop_msgs (t : Turn) (st : State) : list Message :=
  match reminders t with
  | [] => token_cutter (msgs st) max_tokens
  | rs =>
      let reminder_msg :=
        system_msg ("<system-reminder>" +:+ nl +:+ join (nl +:+ nl) rs
                    +:+ nl +:+ "</system-reminder>") in
      token_cutter (msgs st ++ [reminder_msg]) max_tokens
  end.

(** The [for tool_block, result in zip(...)] loop: events and result blocks. *)
Definition fold_results (blocks : list ToolUse) (results : list json)
    : list Action * list json :=
  (map (fun '(tb, r) => Yield (EvToolResult (tu_name tb) (display_output r)))
       (zip blocks results),
   map (fun '(tb, r) => tool_result_dict tb (result_content r))
       (zip blocks results)).

(** The [if tool_use_blocks:] branch.  The bookkeeping of discovered tool
    names for [search_tools] results only writes to the registry store,
    which nothing in a running query reads, and is left out. *)
Definition dispatch (tools : list string) (t : Turn)
    (thinking_block : option (string * string)) (tool_use_blocks : list ToolUse)
    (st : State) : Step :=
  let local_tool_blocks :=
    List.filter (fun tb => name_in (tu_name tb) tools) tool_use_blocks in
  let '(acts, approved) := approvals (decisions t) 0 local_tool_blocks in
  let st1 := emit acts st in
  if negb approved then
    match do_store st1 with
    | (st2, true) => Return (emit [Yield EvCancelled] st2)
    | (st2, false) => BreakError (emit [Yield (EvError store_error)] st2)
    end
  else
    let run := execute_tool_call tools (tool_return t) in
    let st2 := emit (invocations local_tool_blocks (completion t)) st1 in
    match gather local_tool_blocks run (completion t) with
    | None => Awaiting st2
    | Some tool_results =>
        match local_tool_blocks with
        | [] => Continue st2
        | _ =>
            let content_blocks :=
              (match thinking_block with
               | Some (th, sg) => [thinking_dict th sg]
               | None => []
               end ++ map tool_use_dict local_tool_blocks)%list in
            let st3 := append_msg (assistant_msg (JArr content_blocks)) st2 in
            let '(evs, tool_result_blocks) :=
              fold_results local_tool_blocks tool_results in
            Continue (append_msg (user_msg (JArr tool_result_blocks))
                                 (emit evs st3))
        end
    end.

(** One iteration of [while True]. *)
Definition iteration (tools : list string) (t : Turn) (st : State) : Step :=
  let st0 := emit [ModelCall (trimmed_loop_msgs t st)] st in
  match outcome t with
  | Failed exn_type exn_text =>
      BreakError
        (emit [Yield (EvError ("Error: " +:+ exn_type +:+ ": " +:+ exn_text))] st0)
  | Responded response_content =>
      let thinking_block := first_thinking response_content in
      let text_block := first_text response_content in
      let tool_use_blocks := tool_uses response_content in
      let st1 :=
        match thinking_block with
        | Some (th, _) => emit [Yield (EvThinking th)] st0
        | None => st0
        end in
      match tool_use_blocks, text_block with
      | _ :: _, Some txt =>
          dispatch tools t thinking_block tool_use_blocks
                   (emit [Yield (EvText txt)] st1)
      | _ :: _, None => dispatch tools t thinking_block tool_use_blocks st1
      | [], Some txt =>
          match do_store (append_msg (assistant_msg (JStr txt)) st1) with
          | (st2, true) => BreakDone (emit [Yield (EvFinalText txt)] st2)
          | (st2, false) => BreakError (emit [Yield (EvError store_error)] st2)
          end
      | [], None => Continue st1
      end
  end.

(** How the generator ends, if it does. *)
Inductive Exit : Type := Done | Cancelled | Error.

Inductive Run : Type :=
| Finished (how : Exit) (st : State)
| Crashed (st : State)
| Pending (st : State).

(** The code after the loop: "Always save messages at end". *)
Definition finalize (how : Exit) (st : State) : Run :=
  match do_store st with
  | (st', true) => Finished how (emit [Yield EvDone] st')
  | (st', false) => Crashed st'
  end.

(** The [while True] loop, driven by what the surroundings supply turn by
    turn; [Pending] when the loop is still waiting for them. *)
Fixpoint run_loop (tools : list string) (script : list Turn) (st : State)
    : Run :=
  match script with
  | [] => Pending st
  | t :: rest =>
      match iteration tools t st with
      | Continue st' => run_loop tools rest st'
      | BreakDone st' => finalize Done st'
      | BreakError st' => finalize Error st'
      | Return st' => Finished Cancelled st'
      | Awaiting st' => Pending st'
      end
  end.

(** [claude_loop(query, project_dir=...)] on the transcript file [file],
    with the discovered tool names [discovered]; [None] when [load_msgs]
    raises before the first event. *)
Definition claude_loop (query : string) (file : option (list Line))
    (discovered : list string) (script : list Turn) : option Run :=
  loaded ← load_msgs file;
  let tools := (default_tools ++ discovered)%list in
  let history :=
    match loaded with
    | [] => [system_msg system_prompt]
    | _ => loaded
    end in
  let st := {|
    msgs := (history
             ++ [user_msg (JStr (nl +:+ query +:+ nl +:+ nl +:+ "            "))])%list;
    transcript := file;
    trace := [Yield (EvStatus "starting...")] |} in
  Some (run_loop tools script st).

(** What an iteration whose response carries tool requests does before it
    looks at them. *)
Definition preamble (t : Turn) (st : State) (response_content : list SdkBlock)
    : list Action :=
  [ModelCall (trimmed_loop_msgs t st)]
  ++ match first_thinking response_content with
     | Some (th, _) => [Yield (EvThinking th)]
     | None => []
     end
  ++ match first_text response_content with
     | Some txt => [Yield (EvText txt)]
     | None => []
     end.

(** The file holds exactly what [store_msgs] writes for the history of [st]. *)
Definition persisted (st : State) : Prop :=
  exists lines, transcript st = Some lines /\
                store_msgs now_iso (msgs st) = (lines, true).

Definition step_state (s : Step) : State :=
  match s with
  | Continue st | BreakDone st | BreakError st | Return st | Awaiting st => st
  end.

(** The history stays within the data model, and a [return] out of the
    loop body has just stored it. *)
Definition step_ok (s : Step) : Prop :=
  match s with
  | Return st' =>
      Forall message_ok (msgs st') /\
      persisted st' /\
      exists pre, trace st' = pre ++ [StoreMsgs (msgs st'); Yield EvCancelled]
  | Continue st' | BreakDone st' | BreakError st' | Awaiting st' =>
      Forall message_ok (msgs st')
  end.

(** The state in which a run that has ended was left: the history is
    within the data model and stored, and the store is the last thing done
    before the last event. *)
Definition exit_ok (r : Run) : Prop :=
  match r with
  | Finished how st =>
      Forall message_ok (msgs st) /\
      persisted st /\
      exists pre,
        trace st = pre ++ [StoreMsgs (msgs st);
                           Yield (match how with
                                  | Cancelled => EvCancelled
                                  | _ => EvDone
                                  end)]
  | Pending _ => True
  | Crashed _ => False
  end.

End WithRuntime.

(** The same turn with other contents in the approval cells. *)
Definition with_decisions (t : Turn) (ds : nat -> json) : Turn :=
  {| file_changes := file_changes t; plan_reminder := plan_reminder t;
     outcome := outcome t; decisions := ds; tool_return := tool_return t;
     completion := completion t |}.

(** The same turn with the gathered tasks finishing in another order. *)
Definition with_completion (t : Turn) (c : list nat) : Turn :=
  {| file_changes := file_changes t; plan_reminder := plan_reminder t;
     outcome := outcome t; decisions := decisions t;
     tool_return := tool_return t; completion := c |}.

(** The actions of the approval scan. *)
Definition call_or_ask (a : Action) : Prop :=
  match a with
  | Yield (EvToolCall _ _) | Yield (EvApprovalRequest _ _) => True
  | _ => False
  end.

Definition is_invoke (a : Action) : bool :=
  match a with Invoke _ => true | _ => false end.

Definition is_tool_result (a : Action) : bool :=
  match a with Yield (EvToolResult _ _) => true | _ => false end.

End Loop.

(** Sample values for the loop and the store. *)
Module LoopExamples.
Import MsgStore Loop.

Definition read_a : ToolUse :=
  mkToolUse "t1" "read_" (JObj [("file_path", JStr "a.txt")]).

Definition bash_ls : ToolUse :=
  mkToolUse "t2" "bash_" (JObj [("command", JStr "ls")]).

(** Reasoning, narration and two requests, the second one privileged. *)
Definition batch_content : list SdkBlock :=
  [ThinkingBlock "hm" "sig"; TextBlock "let me look";
   ToolUseBlock read_a; ToolUseBlock bash_ls].

(** A turn with that response; every tool returns a text naming its
    request id. *)
Definition batch_turn (ds : nat -> json) (order : list nat) : Turn := {|
  file_changes := "";
  plan_reminder := None;
  outcome := Responded batch_content;
  decisions := ds;
  tool_return := fun tb => JStr ("output of " +:+ tu_id tb);
  completion := order |}.

Definition approve_all : nat -> json := fun _ => JBool true.

(** The first request is benign, the second one is denied. *)
Definition deny_second : nat -> json :=
  fun k => if (k =? 1)%nat then JBool false else JBool true.

(** A consumer that answers every approval request with the string "no". *)
Definition say_no : nat -> json := fun _ => JStr "no".

Definition final_turn : Turn := {|
  file_changes := ""; plan_reminder := None;
  outcome := Responded [TextBlock "all good"];
  decisions := fun _ => JNull;
  tool_return := fun _ => JNull;
  completion := [] |}.

Definition failed_turn : Turn := {|
  file_changes := ""; plan_reminder := None;
  outcome := Failed "APIError" "overloaded";
  decisions := fun _ => JNull;
  tool_return := fun _ => JNull;
  completion := [] |}.

Fixpoint repeat_char (n : nat) (c : ascii) : string :=
  match n with
  | O => EmptyString
  | S n' => String c (repeat_char n' c)
  end.

(** A tool output of 501 characters. *)
Definition long_output : string := repeat_char 501 "a"%char.

(** A response with one request whose tool returns [long_output]. *)
Definition long_turn : Turn := {|
  file_changes := ""; plan_reminder := None;
  outcome := Responded [ToolUseBlock read_a];
  decisions := fun _ => JNull;
  tool_return := fun _ => JStr long_output;
  completion := [0%nat] |}.

Definition trim : list Message -> Z -> list Message :=
  Budget.token_cutter Budget.one_token_per_char.

Definition repr (j : json) : string := "<repr>".

Definition start : State := {|
  msgs := [system_msg "sys"; user_msg (JStr "hi")];
  transcript := None;
  trace := [] |}.

(** A history with SDK objects, dict blocks and plain text. *)
Definition mixed_history : list Message :=
  [ user_msg (JStr "hi");
    {| role := JStr "assistant";
       content := CItems [Sdk (ThinkingBlock "hm" "sig"); Sdk (TextBlock "hello")] |};
    assistant_msg (JArr [thinking_dict "hm" "sig"; tool_use_dict read_a]);
    user_msg (JArr [tool_result_dict read_a (JStr "hello")]) ].

End LoopExamples.

(** Observations on runs of the loop, used to state its properties. *)
Module LoopView.
Import MsgStore Loop.

(** The state a run is in when it ends or waits. *)
Definition run_state (r : Run) : State :=
  match r with
  | Finished _ st | Crashed st | Pending st => st
  end.

(** The roles of the messages the loop appends. *)
Definition loop_role (m : Message) : Prop :=
  role m = JStr "assistant" \/ role m = JStr "user".

(** The value under [key] of a block dict of type [ty]. *)
Definition block_field (ty key : string) (b : json) : option json :=
  match b with
  | JObj d => if is_str (dict_get "type" d) ty then dict_get key d else None
  | _ => None
  end.

(** What the approval scan yields for one request. *)
Definition announce (tb : ToolUse) : list Action :=
  Yield (EvToolCall (tu_name tb) (tu_input tb))
  :: (if name_in (tu_name tb) DANGEROUS_TOOLS
      then [Yield (EvApprovalRequest (tu_name tb) (tu_input tb))]
      else []).

(** The request at this position is privileged and its cell is not truthy. *)
Definition refused (ds : nat -> json) (blocks : list ToolUse) (k : nat)
    : Prop :=
  exists tb, blocks !! k = Some tb /\
             name_in (tu_name tb) DANGEROUS_TOOLS = true /\
             truthy (ds k) = false.

(** The text [claude_loop] makes of a query. *)
Definition query_msg (query : string) : Message :=
  user_msg (JStr (nl +:+ query +:+ nl +:+ nl +:+ "            ")).

End LoopView.

(** Further sample values for the plan tracker. *)
Module PlanSamples.
Import Plan PlanView PlanExamples.

(** The plan [make_plan] builds from [plan_AB_text] at time 0. *)
Definition plan_fresh : Plan := {|
  title := JStr "T"; context := JStr "";
  steps := [JStr "A"; JStr "B"];
  step_statuses := ["not_started"; "not_started"];
  step_findings := [""; ""];
  current_step_index := 0; created_at := 0 |}.

(** Both steps of that plan completed in order. *)
Definition plan_done : Plan := {|
  title := JStr "T"; context := JStr "";
  steps := [JStr "A"; JStr "B"];
  step_statuses := ["completed"; "completed"];
  step_findings := [""; ""];
  current_step_index := 2; created_at := 0 |}.

Definition store_done : Store := set_plan 2 "proj" plan_done ∅.

End PlanSamples.

(** Further sample values for the loop and the store. *)
Module LoopSamples.
Import MsgStore Loop LoopExamples.

(** A request for a tool the loop does not run itself. *)
Definition remote_search : ToolUse :=
  mkToolUse "t9" "mcp_search" (JObj [("q", JStr "rocq")]).

Definition remote_content : list SdkBlock :=
  [TextBlock "searching"; ToolUseBlock remote_search].

Definition remote_turn : Turn := {|
  file_changes := ""; plan_reminder := None;
  outcome := Responded remote_content;
  decisions := fun _ => JNull;
  tool_return := fun _ => JNull;
  completion := [] |}.

(** A message whose only block is a text block without text. *)
Definition textless : Message :=
  user_msg (JArr [JObj [("type", JStr "text")]]).

Definition broken_history : list Message :=
  [user_msg (JStr "hi"); textless; user_msg (JStr "later")].

(** A message without content. *)
Definition contentless : Message :=
  {| role := JStr "user"; content := CJson JNull |}.

End LoopSamples.

(** * Properties *)

(** ** Plan tracker *)

Module PlanProps.
Import Plan.

Lemma store_ok_empty : store_ok ∅.
Proof. intros k e H. rewrite lookup_empty in H. discriminate. Qed.

Lemma store_ok_delete k st : store_ok st -> store_ok (delete k st).
Proof.
  intros Hok k' e H.
  destruct (decide (k = k')) as [->|Hne].
  - rewrite lookup_delete_eq in H. discriminate.
  - rewrite lookup_delete_ne in H by done. eauto.
Qed.

Lemma store_ok_set now project p st :
  store_ok st -> lengths_ok p -> store_ok (set_plan now project p st).
Proof.
  intros Hok Hp k e H. unfold set_plan, _set_with_ttl in H.
  destruct (decide (_make_key project = k)) as [Heq|Hne].
  - subst k. rewrite lookup_insert_eq in H. injection H as <-. exact Hp.
  - rewrite lookup_insert_ne in H by done. eauto.
Qed.

Lemma get_plan_ok now project st st1 o :
  get_plan now project st = (st1, o) ->
  store_ok st ->
  store_ok st1 /\ (forall p, o = Some p -> lengths_ok p).
Proof.
  unfold get_plan, _get. intros Hget Hok.
  destruct (st !! _make_key project) as [e|] eqn:He.
  - destruct (now >? expiry e).
    + injection Hget as <- <-. split; [by apply store_ok_delete|discriminate].
    + injection Hget as <- <-. split; [done|].
      intros p [= <-]. eauto.
  - injection Hget as <- <-. split; [done|discriminate].
Qed.

(** Reading back, at the same clock reading, what [set_plan] just wrote. *)
Lemma get_plan_set now project p st :
  snd (get_plan now project (set_plan now project p st)) = Some p.
Proof.
  unfold get_plan, _get, set_plan, _set_with_ttl.
  rewrite lookup_insert_eq. simpl.
  destruct (now >? now + 3600) eqn:E; [lia|done].
Qed.

Lemma list_assign_length {A} (l l' : list A) i x :
  list_assign l i x = Some l' -> length l' = length l.
Proof.
  unfold list_assign. destruct (_ && _); [|discriminate].
  intros [= <-]. apply length_insert.
Qed.

Lemma list_assign_in_range {A} (l : list A) i x :
  0 <= i < Z.of_nat (length l) ->
  list_assign l i x = Some (<[Z.to_nat i := x]> l).
Proof.
  intros [H1 H2]. unfold list_assign.
  destruct (0 <=? i) eqn:E1; [|lia].
  destruct (i <? Z.of_nat (length l)) eqn:E2; [done|lia].
Qed.

(** Closes the branches in which a tool returns without writing. *)
Ltac no_write :=
  simpl; split; [assumption | intros; discriminate].

Section Tools.
Variable json_loads : string -> option json.
Variable int_of_str : string -> option Z.

Local Abbreviation make_plan := (make_plan json_loads).
Local Abbreviation update_step := (update_step int_of_str).
Local Abbreviation exec := (exec json_loads int_of_str).
Local Abbreviation run := (run json_loads int_of_str).

(** A successful [make_plan] stores a plan whose arrays are synchronised. *)
Lemma make_plan_ok now content project st :
  store_ok st ->
  store_ok (fst (make_plan now content project st)) /\
  (reports_success (snd (make_plan now content project st)) = true ->
   exists p, snd (get_plan now project (fst (make_plan now content project st))) = Some p
             /\ lengths_ok p).
Proof.
  intros Hok. unfold Plan.make_plan.
  destruct (String.eqb content ""); [no_write|].
  destruct (json_loads content) as [plan_data|]; [|no_write].
  destruct (py_in "title" plan_data) as [[]|]; [|no_write|no_write].
  destruct (py_in "steps" plan_data) as [[]|]; [|no_write|no_write].
  destruct plan_data; try no_write.
  destruct (dict_get "steps" kv) as [[| | | |[|s ss]|]|]; try no_write.
  destruct (get_plan now project st) as [st1 prev] eqn:Hget.
  destruct (get_plan_ok _ _ _ _ _ Hget Hok) as [Hok1 _].
  set (p := {| title := _ |}).
  assert (Hp : lengths_ok p).
  { unfold lengths_ok, p. cbn [steps step_statuses step_findings].
    rewrite !length_replicate. done. }
  cbn [fst snd]. split.
  - by apply store_ok_set.
  - intros _. exists p. split; [apply get_plan_set|done].
Qed.

Lemma update_step_ok now arg status findings project st :
  store_ok st ->
  store_ok (fst (update_step now arg status findings project st)) /\
  (reports_success (snd (update_step now arg status findings project st)) = true ->
   exists p,
     snd (get_plan now project
            (fst (update_step now arg status findings project st))) = Some p
     /\ lengths_ok p).
Proof.
  intros Hok. unfold Plan.update_step.
  destruct (get_plan now project st) as [st1 [plan|]] eqn:Hget;
    destruct (get_plan_ok _ _ _ _ _ Hget Hok) as [Hok1 Hp]; [|no_write].
  specialize (Hp plan eq_refl). destruct Hp as [Hp1 Hp2].
  destruct (resolve_step_index int_of_str arg plan) as [i|s]; [|no_write].
  destruct (_ || _); [no_write|].
  set (after_status := if str_truthy status then _ else _).
  assert (Has : forall p1, after_status = inl p1 -> lengths_ok p1).
  { subst after_status. intros p1.
    destruct (str_truthy status); [|by intros [= <-]].
    destruct (negb _); [discriminate|].
    destruct (list_assign (step_statuses plan) i _) as [l'|] eqn:Hl; [|discriminate].
    intros [= <-]. apply list_assign_length in Hl.
    unfold lengths_ok. cbn [steps step_statuses step_findings]. lia. }
  assert (Hr : forall r, after_status = inr r -> reports_success r = false).
  { subst after_status. intros r.
    destruct (str_truthy status); [|discriminate].
    destruct (negb _); [by intros [= <-]|].
    destruct (list_assign _ _ _); [discriminate|by intros [= <-]]. }
  destruct after_status as [plan1|r];
    [|simpl; rewrite (Hr r eq_refl); split; [assumption|discriminate]].
  destruct (Has plan1 eq_refl) as [Hq1 Hq2].
  set (after_findings := if str_truthy findings then _ else _).
  assert (Haf : forall p2, after_findings = Some p2 -> lengths_ok p2).
  { subst after_findings. intros p2.
    destruct (str_truthy findings); [|by intros [= <-]].
    destruct (list_assign (step_findings plan1) i _) as [l'|] eqn:Hl; [|discriminate].
    intros [= <-]. apply list_assign_length in Hl.
    unfold lengths_ok. cbn [steps step_statuses step_findings]. lia. }
  destruct after_findings as [plan2|]; [|no_write].
  cbn [fst snd]. split.
  - apply store_ok_set; auto.
  - intros _. exists plan2. split; [apply get_plan_set|auto].
Qed.

Lemma add_step_ok now desc project st :
  store_ok st ->
  store_ok (fst (add_step now desc project st)) /\
  (reports_success (snd (add_step now desc project st)) = true ->
   exists p, snd (get_plan now project (fst (add_step now desc project st))) = Some p
             /\ lengths_ok p).
Proof.
  intros Hok. unfold add_step.
  destruct (get_plan now project st) as [st1 [plan|]] eqn:Hget;
    destruct (get_plan_ok _ _ _ _ _ Hget Hok) as [Hok1 Hp]; [|no_write].
  destruct (Hp plan eq_refl) as [Hp1 Hp2].
  set (p := {| title := _ |}).
  assert (Hq : lengths_ok p).
  { unfold lengths_ok, p. cbn [steps step_statuses step_findings].
    rewrite !length_app. simpl. lia. }
  cbn [fst snd]. split.
  - by apply store_ok_set.
  - intros _. exists p. split; [apply get_plan_set|done].
Qed.

Lemma exec_ok op st :
  store_ok st ->
  store_ok (fst (exec op st)) /\
  (reports_success (snd (exec op st)) = true ->
   exists p, snd (get_plan (op_time op) (op_project op) (fst (exec op st))) = Some p
             /\ lengths_ok p).
Proof.
  destruct op; simpl.
  - apply make_plan_ok.
  - apply update_step_ok.
  - apply add_step_ok.
Qed.

Lemma run_ok ops st : store_ok st -> store_ok (run ops st).
Proof.
  revert st. induction ops as [|op ops IH]; intros st Hok; [done|].
  simpl. apply IH. by apply exec_ok.
Qed.

End Tools.

(** Every call of [update_step] on an existing plan either returns without
    writing, or writes a plan that differs from the old one exactly as
    described here. *)
Lemma update_step_cases (int_of_str : string -> option Z)
    now arg status findings project st st1 plan :
  get_plan now project st = (st1, Some plan) ->
  lengths_ok plan ->
  let res := update_step int_of_str now arg status findings project st in
  (fst res = st1 /\ reports_success (snd res) = false /\
   forall i, resolve_step_index int_of_str arg plan = inl i ->
             0 <= i < Z.of_nat (length (steps plan)) ->
             (str_truthy status = true -> status_valid (default "" status) = true) ->
             False) \/
  (exists i plan',
     resolve_step_index int_of_str arg plan = inl i /\
     0 <= i < Z.of_nat (length (steps plan)) /\
     (str_truthy status = true -> status_valid (default "" status) = true) /\
     res = (set_plan now project plan' st1, StepUpdated i) /\
     steps plan' = steps plan /\
     step_statuses plan' =
       (if str_truthy status
        then <[Z.to_nat i := default "" status]> (step_statuses plan)
        else step_statuses plan) /\
     step_findings plan' =
       (if str_truthy findings
        then <[Z.to_nat i := default "" findings]> (step_findings plan)
        else step_findings plan) /\
     current_step_index plan' =
       (if str_truthy status && String.eqb (default "" status) "completed"
           && (i =? current_step_index plan)
        then i + 1 else current_step_index plan)).
Proof.
  intros Hget [Hl1 Hl2] res. subst res. unfold update_step. rewrite Hget.
  destruct (resolve_step_index int_of_str arg plan) as [i|s]; [|by left].
  destruct ((i <? 0) || (i >=? _)) eqn:Hrange.
  { left. repeat split; try done. intros ? [= <-] ? _. lia. }
  assert (Hi : 0 <= i < Z.of_nat (length (steps plan))) by lia.
  destruct (str_truthy status) eqn:Hs.
  - destruct (status_valid (default "" status)) eqn:Hv.
    2:{ left. repeat split; try done. intros ? _ _ Hv'.
        specialize (Hv' eq_refl). congruence. }
    cbn [negb].
    rewrite (list_assign_in_range (step_statuses plan)) by lia.
    cbn [step_findings].
    destruct (str_truthy findings) eqn:Hf.
    + rewrite (list_assign_in_range (step_findings plan)) by lia.
      right. eexists i, _. repeat split; try reflexivity; try lia.
      cbn [current_step_index andb].
      destruct (String.eqb _ "completed" && (i =? current_step_index plan));
        [|done].
      destruct (i + 1 <? _) eqn:E; lia.
    + right. eexists i, _. repeat split; try reflexivity; try lia.
      cbn [current_step_index andb].
      destruct (String.eqb _ "completed" && (i =? current_step_index plan));
        [|done].
      destruct (i + 1 <? _) eqn:E; lia.
  - destruct (str_truthy findings) eqn:Hf.
    + rewrite (list_assign_in_range (step_findings plan)) by lia.
      right. eexists i, _. repeat split; try reflexivity; try lia; done.
    + right. exists i, plan. repeat split; try reflexivity; try lia; try done.
Qed.

(** Reading a plan twice at the same clock reading gives the same plan. *)
Lemma get_plan_again now project st st1 plan :
  get_plan now project st = (st1, Some plan) ->
  snd (get_plan now project st1) = Some plan.
Proof.
  unfold get_plan, _get.
  destruct (st !! _make_key project) as [e|] eqn:He; [|discriminate].
  destruct (now >? expiry e) eqn:E; [discriminate|].
  intros [= <- <-]. by rewrite He, E.
Qed.

(** C6. On an existing plan, a successful [update_step] with status
    ["completed"] addressed to the current step moves [current_step_index]
    forward by exactly one (which is [len(steps)] when that step was the
    last); addressed to any other step it leaves [current_step_index] as it
    was; and no call, successful or not, changes the status of a step other
    than the one it addresses. *)
Theorem update_step_focus_rule (int_of_str : string -> option Z)
    now arg status findings project st st1 plan :
  get_plan now project st = (st1, Some plan) ->
  lengths_ok plan ->
  let res := update_step int_of_str now arg status findings project st in
  let n := Z.of_nat (length (steps plan)) in
  (forall i,
     resolve_step_index int_of_str arg plan = inl i ->
     0 <= i < n ->
     status = Some "completed" ->
     exists plan',
       res = (set_plan now project plan' st1, StepUpdated i) /\
       (i = current_step_index plan ->
        current_step_index plan' = current_step_index plan + 1 /\
        (i = n - 1 -> current_step_index plan' = n)) /\
       (i <> current_step_index plan ->
        current_step_index plan' = current_step_index plan)) /\
  (exists plan',
     snd (get_plan now project (fst res)) = Some plan' /\
     forall j : nat,
       (forall i, resolve_step_index int_of_str arg plan = inl i -> j <> Z.to_nat i) ->
       step_statuses plan' !! j = step_statuses plan !! j).
Proof.
  intros Hget Hlen res n. subst res n.
  destruct (update_step_cases int_of_str now arg status findings project
              st st1 plan Hget Hlen) as [(Hst & _ & Hbad)|Hgood].
  - split.
    + intros i Hi Hr ->. exfalso. apply (Hbad i Hi Hr). reflexivity.
    + exists plan. rewrite Hst. split; [by eapply get_plan_again|done].
  - destruct Hgood as (i & plan' & Hi & Hr & Hv & Hres & _ & Hss & _ & Hcur).
    split.
    + intros i' Hi' _ ->. assert (i' = i) as -> by congruence.
      exists plan'. split; [done|].
      rewrite Hcur. cbn.
      destruct (i =? current_step_index plan) eqn:E; split; intros; lia.
    + exists plan'. rewrite Hres. cbn [fst]. split; [apply get_plan_set|].
      intros j Hj. rewrite Hss. destruct (str_truthy status); [|done].
      apply list_lookup_insert_ne. intros Heq. by apply (Hj i).
Qed.

(** C8 (amended). On an existing plan and a valid step index, a non-empty
    [findings] argument becomes that step's findings as it is, nothing of the
    previous text is kept and no other step's findings change; an empty
    [findings] string is treated like an omitted one and leaves the
    findings as they were. *)
Theorem update_step_findings_replace (int_of_str : string -> option Z)
    now arg status (f : string) project st st1 plan i :
  get_plan now project st = (st1, Some plan) ->
  lengths_ok plan ->
  resolve_step_index int_of_str arg plan = inl i ->
  0 <= i < Z.of_nat (length (steps plan)) ->
  (str_truthy status = true -> status_valid (default "" status) = true) ->
  exists plan',
    update_step int_of_str now arg status (Some f) project st
      = (set_plan now project plan' st1, StepUpdated i) /\
    (f <> "" ->
       step_findings plan' = <[Z.to_nat i := f]> (step_findings plan) /\
       step_findings plan' !! Z.to_nat i = Some f) /\
    (f = "" -> step_findings plan' = step_findings plan).
Proof.
  intros Hget Hlen Hi Hr Hv.
  destruct (update_step_cases int_of_str now arg status (Some f) project
              st st1 plan Hget Hlen) as [(_ & _ & Hbad)|Hgood].
  { exfalso. by apply (Hbad i). }
  destruct Hgood as (i' & plan' & Hi' & _ & _ & Hres & _ & _ & Hfs & _).
  assert (i' = i) as -> by congruence.
  exists plan'. split; [done|]. rewrite Hfs. cbn [str_truthy default].
  split.
  - intros Hne. apply String.eqb_neq in Hne. rewrite Hne. cbn [negb].
    split; [done|]. apply list_lookup_insert_eq.
    destruct Hlen as [H1 H2]. lia.
  - intros ->. done.
Qed.

(** C5. Starting from the empty process-wide store, after any sequence of
    [make_plan], [update_step] and [add_step] calls every stored plan has
    [len(steps) == len(step_statuses) == len(step_findings)]; in particular
    whenever such a call reports success, the plan it has just written for
    its project can be read back and its three arrays have the same length. *)
Theorem plan_arrays_synchronised
    (json_loads : string -> option json) (int_of_str : string -> option Z)
    (ops : list Op) (op : Op) :
  let st := run json_loads int_of_str ops ∅ in
  let res := exec json_loads int_of_str op st in
  store_ok (fst res) /\
  (reports_success (snd res) = true ->
   exists p, snd (get_plan (op_time op) (op_project op) (fst res)) = Some p
             /\ lengths_ok p).
Proof.
  intros st res. apply exec_ok. apply run_ok. apply store_ok_empty.
Qed.

Import PlanExamples.

Example store_AB_holds_plan_AB :
  get_plan 2 "proj" store_AB = (store_AB, Some plan_AB).
Proof. vm_compute. reflexivity. Qed.

Lemma plan_arrays_synchronised_witness :
  let res := exec sample_loads no_int (AddStep 2 "C" "proj") store_AB in
  reports_success (snd res) = true /\
  exists p, snd (get_plan 2 "proj" (fst res)) = Some p /\ lengths_ok p.
Proof.
  split; [reflexivity|].
  apply (plan_arrays_synchronised sample_loads no_int
           [MakePlan 0 plan_AB_text "proj";
            UpdateStep 1 (Some (IntArg 0)) (Some "in_progress") (Some "old") "proj"]
           (AddStep 2 "C" "proj")).
  reflexivity.
Defined.

Lemma update_step_focus_rule_witness :
  exists plan',
    update_step no_int 2 None (Some "completed") None "proj" store_AB
      = (set_plan 2 "proj" plan' store_AB, StepUpdated 0) /\
    current_step_index plan' = 1.
Proof.
  destruct (update_step_focus_rule no_int 2 None (Some "completed") None
              "proj" store_AB store_AB plan_AB) as [Hadv _].
  - vm_compute. reflexivity.
  - split; reflexivity.
  - destruct (Hadv 0) as (plan' & Hres & Hcur & _).
    + reflexivity.
    + simpl. lia.
    + reflexivity.
    + exists plan'. split; [exact Hres|]. apply Hcur. reflexivity.
Defined.

(** C8 as stated fails for the empty string: step 0 of [plan_AB] has
    findings ["old"]; after [update_step(0, findings="")] reports success
    they are still ["old"], not [""] . *)
Lemma update_step_empty_findings_kept :
  let res := update_step no_int 2 (Some (IntArg 0)) None (Some "") "proj"
               store_AB in
  snd res = StepUpdated 0 /\
  step_findings <$> snd (get_plan 2 "proj" (fst res)) = Some ["old"; ""] /\
  step_findings <$> snd (get_plan 2 "proj" (fst res)) <> Some [""; ""].
Proof. vm_compute. repeat split. discriminate. Qed.

Lemma update_step_findings_replace_witness :
  exists plan',
    update_step no_int 2 (Some (IntArg 0)) None (Some "new") "proj" store_AB
      = (set_plan 2 "proj" plan' store_AB, StepUpdated 0) /\
    step_findings plan' = ["new"; ""].
Proof.
  destruct (update_step_findings_replace no_int 2 (Some (IntArg 0)) None
              "new" "proj" store_AB store_AB plan_AB 0)
    as (plan' & Hres & Hnew & _).
  - vm_compute. reflexivity.
  - split; reflexivity.
  - reflexivity.
  - simpl. lia.
  - discriminate.
  - exists plan'. split; [exact Hres|].
    destruct Hnew as [Hf _]; [discriminate|]. exact Hf.
Defined.

End PlanProps.

(** ** Transcript store *)

Module MsgStoreProps.
Import MsgStore.

Abbreviation not_thinking := (fun b : json => has_type "thinking" b = false).

Lemma filter_cons_dec (P : json -> Prop) `{!forall x, Decision (P x)} x l :
  filter P (x :: l) = if decide (P x) then x :: filter P l else filter P l.
Proof. reflexivity. Qed.

(** On items of the data model, the [for] loop keeps exactly the blocks
    that are not thinking blocks. *)
Lemma omap_normalize_item l :
  Forall item_ok l ->
  omap normalize_item l = filter not_thinking (map block_of l) /\
  Forall block_ok (filter not_thinking (map block_of l)).
Proof.
  induction 1 as [|it l Hit _ [IH1 IH2]]; [by split|].
  cbn [map omap list_omap]. rewrite filter_cons_dec.
  destruct it as [b|j].
  - destruct b; cbn in Hit; try done; cbn; rewrite ?IH1; split; try done;
      constructor; try done; cbn; eauto; discriminate.
  - destruct j; cbn in Hit; try done. cbn [normalize_item block_of has_type].
    destruct (is_str (dict_get "type" kv) "thinking") eqn:E.
    + destruct (decide _) as [?|_]; [congruence|]. by split.
    + destruct (decide _) as [_|?]; [|congruence]. rewrite IH1.
      split; [done|]. by constructor.
Qed.

Lemma normalize_list_ok l :
  Forall item_ok l ->
  normalize_list l
  = Some (unwrap_single_text (filter not_thinking (map block_of l))).
Proof.
  intros Hl. destruct (omap_normalize_item l Hl) as [Heq Hok].
  unfold normalize_list. rewrite Heq.
  destruct (filter _ _) as [|[| | | | |d] [|? ?]]; try done.
  cbn [unwrap_single_text].
  destruct (is_str (dict_get "type" d) "text") eqn:E; [|done].
  apply Forall_inv in Hok. cbn in Hok. destruct (Hok E) as [t ->]. done.
Qed.

Lemma map_block_of_Val (l : list json) : map block_of (map Val l) = l.
Proof. induction l; [done|]. cbn. by f_equal. Qed.

(** Writing a message of the data model and reading the line back gives
    the normal form. *)
Lemma normalize_reconstruct ts m :
  message_ok m ->
  exists j, _normalize_message ts m = Some j /\
            _reconstruct_message j = Some (strip_and_unwrap m).
Proof.
  destruct m as [r c]. unfold message_ok, _normalize_message, strip_and_unwrap.
  cbn [content role].
  destruct c as [j|l].
  - destruct j; try done.
    + intros _. eexists. split; [done|]. done.
    + intros Hl.
      assert (Hl' : Forall item_ok (map Val l)).
      { apply Forall_map. eapply Forall_impl; [exact Hl|]. done. }
      rewrite (normalize_list_ok _ Hl'), map_block_of_Val. cbn.
      eexists. split; [done|]. done.
  - intros Hl. rewrite (normalize_list_ok _ Hl). cbn.
    eexists. split; [done|]. done.
Qed.

Lemma store_load ts H :
  Forall message_ok H ->
  exists lines, store_msgs ts H = (lines, true) /\
                load_msgs (Some lines) = Some (map strip_and_unwrap H).
Proof.
  induction 1 as [|m H Hm _ (lines & Hst & Hld)]; [by exists []|].
  destruct (normalize_reconstruct ts m Hm) as (j & Hn & Hr).
  exists (JsonLine j :: lines). cbn [store_msgs]. rewrite Hn, Hst.
  split; [done|]. cbn in *. rewrite Hr. cbn. rewrite Hld. done.
Qed.

Lemma filter_not_thinking_idem (l : list json) :
  filter not_thinking (filter not_thinking l) = filter not_thinking l.
Proof.
  induction l as [|x l IH]; [done|].
  rewrite filter_cons_dec. destruct (decide _) as [Hx|Hx]; [|done].
  rewrite filter_cons_dec. destruct (decide _); [|done]. by f_equal.
Qed.

Lemma Forall_filter_not_thinking (l : list json) :
  Forall block_ok l -> Forall block_ok (filter not_thinking l).
Proof.
  induction 1 as [|x l Hx _ IH]; [done|].
  rewrite filter_cons_dec. destruct (decide _); [by constructor|done].
Qed.

(** The normal form is again a message of the data model and normalising
    it once more changes nothing. *)
Lemma strip_and_unwrap_ok m :
  message_ok m ->
  message_ok (strip_and_unwrap m) /\
  strip_and_unwrap (strip_and_unwrap m) = strip_and_unwrap m.
Proof.
  intros Hm.
  assert (Hgen : forall r bs, Forall block_ok bs ->
    let m' := {| role := r;
                 content := CJson (unwrap_single_text (filter not_thinking bs)) |} in
    message_ok m' /\ strip_and_unwrap m' = m').
  { intros r bs Hbs m'. subst m'.
    pose proof (Forall_filter_not_thinking _ Hbs) as Hf.
    pose proof (filter_not_thinking_idem bs) as Hidem.
    destruct (filter not_thinking bs) as [|b [|b' fl]] eqn:Hfl.
    - by split.
    - destruct b as [| | | | |d];
        try (split; [exact Hf|];
             unfold strip_and_unwrap; cbn [content role unwrap_single_text];
             by rewrite Hidem).
      cbn [unwrap_single_text].
      destruct (is_str (dict_get "type" d) "text") eqn:E.
      + apply Forall_inv in Hf. cbn in Hf. destruct (Hf E) as [t ->].
        by split.
      + split; [exact Hf|].
        unfold strip_and_unwrap. cbn [content role]. rewrite Hidem.
        cbn [unwrap_single_text]. by rewrite E.
    - destruct b; (split; [exact Hf|]);
        unfold strip_and_unwrap; cbn [content role unwrap_single_text];
        by rewrite Hidem. }
  destruct m as [r c]. unfold message_ok in Hm. cbn [content] in Hm.
  destruct c as [j|l].
  - destruct j; try done.
    apply (Hgen r l Hm).
  - unfold strip_and_unwrap at 1 3 4. cbn [content role].
    apply Hgen.
    destruct (omap_normalize_item l Hm) as [_ Hok].
    clear Hgen. induction Hm as [|it l Hit Hl IH]; [done|].
    cbn [map]. constructor.
    + destruct it as [[]|j]; cbn in *; try done; intros; try discriminate; eauto.
    + apply IH. cbn [map] in Hok. rewrite filter_cons_dec in Hok.
      destruct (decide _); [by apply Forall_inv_tail in Hok|done].
Qed.

(** C4. For every history [H] of the data model, loading right after
    storing [H] yields [H'], which is [H] with the thinking blocks removed
    from every block list and every list left with a single text block
    replaced by that text; storing and loading [H'] again yields [H']. *)
Theorem store_load_roundtrip (ts ts' : string) (H : list Message) :
  Forall message_ok H ->
  let H' := map strip_and_unwrap H in
  (exists lines, store_msgs ts H = (lines, true) /\
                 load_msgs (Some lines) = Some H') /\
  (exists lines', store_msgs ts' H' = (lines', true) /\
                  load_msgs (Some lines') = Some H').
Proof.
  intros HH H'. split; [by apply store_load|].
  assert (Hok : Forall message_ok H' /\ map strip_and_unwrap H' = H').
  { subst H'. induction HH as [|m H Hm _ [IH1 IH2]]; [by split|].
    destruct (strip_and_unwrap_ok m Hm) as [H1 H2].
    cbn [map]. split; [by constructor|]. by rewrite H2, IH2. }
  destruct Hok as [Hok Hfix].
  destruct (store_load ts' H' Hok) as (lines' & Hst & Hld).
  exists lines'. split; [done|]. by rewrite Hfix in Hld.
Qed.

Lemma store_load_roundtrip_witness :
  exists lines,
    store_msgs "t0" LoopExamples.mixed_history = (lines, true) /\
    load_msgs (Some lines)
    = Some [ Loop.user_msg (JStr "hi");
             Loop.assistant_msg (JStr "hello");
             Loop.assistant_msg (JArr [Loop.tool_use_dict LoopExamples.read_a]);
             Loop.user_msg (JArr [Loop.tool_result_dict LoopExamples.read_a
                                    (JStr "hello")]) ].
Proof.
  destruct (store_load_roundtrip "t0" "t1" LoopExamples.mixed_history)
    as [Hfirst _].
  - repeat constructor; cbn; discriminate.
  - exact Hfirst.
Defined.

End MsgStoreProps.

(** ** Context budgeter *)

Module BudgetProps.
Import Budget.








Section Trim.
Variable tokens : Message -> nat.

Local Abbreviation count := (count tokens).
Local Abbreviation trim_units := (trim_units tokens).
Local Abbreviation token_cutter := (token_cutter tokens).
Local Abbreviation system := (fun m : Message => is_system m = true).








End Trim.

(** *** Pairing *)

Lemma ids_within_spec xs ys :
  ids_within xs ys = true <-> forall i, i ∈ xs -> i ∈ ys.
Proof.
  unfold ids_within. rewrite forallb_forall. split.
  - intros Hall i Hi. apply list_elem_of_In in Hi.
    specialize (Hall i Hi). apply existsb_exists in Hall as (i' & Hi' & He).
    apply String.eqb_eq in He. subst i'. by apply list_elem_of_In.
  - intros Hall i Hi. apply existsb_exists. exists i. split.
    + apply list_elem_of_In, Hall. by apply list_elem_of_In.
    + apply String.eqb_refl.
Qed.


Lemma turn_valid_from_cons p m rest :
  turn_valid_from p (m :: rest)
  = ids_within p (result_ids m) && ids_within (result_ids m) p
    && turn_valid_from (request_ids m) rest.
Proof. reflexivity. Qed.




Lemma turn_valid_from_paired ms :
  forall p,
    turn_valid_from p ms = true ->
    (forall i, i ∈ p -> exists b, b ∈ ms /\ i ∈ result_ids b) /\
    (forall a i, a ∈ ms -> i ∈ request_ids a ->
                 exists b, b ∈ ms /\ i ∈ result_ids b) /\
    (forall b i, b ∈ ms -> i ∈ result_ids b ->
                 i ∈ p \/ exists a, a ∈ ms /\ i ∈ request_ids a).
Proof.
  induction ms as [|m ms IH]; intros p Hv.
  { destruct p; [|done]. repeat split.
    - intros i Hi. by apply elem_of_nil in Hi.
    - intros a i Ha. by apply elem_of_nil in Ha.
    - intros b i Hb. by apply elem_of_nil in Hb. }
  rewrite turn_valid_from_cons in Hv.
  apply andb_prop in Hv as [Hv Hrest]. apply andb_prop in Hv as [Hpr Hrp].
  rewrite ids_within_spec in Hpr, Hrp.
  destruct (IH _ Hrest) as (Hopen & Hreq & Hres).
  repeat split.
  - intros i Hi. exists m. split; [by left|by apply Hpr].
  - intros a i Ha Hi. apply elem_of_cons in Ha as [->|Ha].
    + destruct (Hopen i Hi) as (b & Hb & Hib). exists b. split; [by right|done].
    + destruct (Hreq a i Ha Hi) as (b & Hb & Hib). exists b. split; [by right|done].
  - intros b i Hb Hi. apply elem_of_cons in Hb as [->|Hb].
    + left. by apply Hrp.
    + destruct (Hres b i Hb Hi) as [Hm|(a & Ha & Hia)].
      * right. exists m. split; [by left|done].
      * right. exists a. split; [by right|done].
Qed.

Lemma turn_valid_paired ms : turn_valid ms = true -> paired ms.
Proof.
  intros Hv. destruct (turn_valid_from_paired ms [] Hv) as (_ & Hreq & Hres).
  split; [exact Hreq|]. intros b i Hb Hi.
  destruct (Hres b i Hb Hi) as [Hnil|Ha]; [by apply elem_of_nil in Hnil|done].
Qed.


(** A valid history stays valid when a valid piece is appended. *)
Lemma turn_valid_from_extend ms more :
  forall p,
    turn_valid_from p ms = true ->
    turn_valid_from [] more = true ->
    turn_valid_from p (ms ++ more) = true.
Proof.
  induction ms as [|m ms IH]; intros p Hv Hmore.
  - by destruct p.
  - cbn [app]. rewrite turn_valid_from_cons in *.
    apply andb_prop in Hv as [Hids Hrest]. rewrite Hids. by apply IH.
Qed.

Lemma ids_within_refl l : ids_within l l = true.
Proof. by apply ids_within_spec. Qed.




End BudgetProps.

(** ** Agent loop *)

Module LoopProps.
Import MsgStore Loop.

Lemma string_length_substring n s : (String.length (substring 0 n s) <= n)%nat.
Proof.
  revert s. induction n as [|n IH]; intros [|c s]; cbn; try lia.
  specialize (IH s). lia.
Qed.

(** *** The approval scan *)

Lemma approvals_actions ds k blocks :
  Forall call_or_ask (fst (approvals ds k blocks)).
Proof.
  revert k. induction blocks as [|tb rest IH]; intros k; cbn [approvals fst snd]; [done|].
  specialize (IH (S k)).
  destruct (name_in (tu_name tb) DANGEROUS_TOOLS).
  - destruct (truthy (ds k)).
    + destruct (approvals ds (S k) rest). cbn [fst snd] in *.
      constructor; [exact I|]. constructor; [exact I|done].
    + cbn. constructor; [exact I|]. constructor; [exact I|done].
  - destruct (approvals ds (S k) rest). cbn [fst snd] in *. constructor; [exact I|done].
Qed.

(** The scan runs to its end exactly when every privileged block found its
    cell truthy. *)
Lemma approvals_true ds k blocks :
  snd (approvals ds k blocks) = true <->
  forall j tb, blocks !! j = Some tb ->
               name_in (tu_name tb) DANGEROUS_TOOLS = true ->
               truthy (ds (k + j)%nat) = true.
Proof.
  revert k. induction blocks as [|tb rest IH]; intros k; cbn [approvals fst snd].
  { split; [by intros _ j tb|done]. }
  specialize (IH (S k)).
  destruct (name_in (tu_name tb) DANGEROUS_TOOLS) eqn:Hd.
  - destruct (truthy (ds k)) eqn:Hk.
    + destruct (approvals ds (S k) rest) as [acts ok]. cbn [fst snd] in *. rewrite IH.
      split.
      * intros H [|j] tb' Hj Hdj; cbn in Hj.
        -- by rewrite Nat.add_0_r.
        -- rewrite <- Nat.add_succ_comm. by apply (H j tb').
      * intros H j tb' Hj Hdj. rewrite Nat.add_succ_comm. by apply (H (S j) tb').
    + cbn. split; [done|]. intros H.
      specialize (H 0%nat tb eq_refl Hd). rewrite Nat.add_0_r in H. congruence.
  - destruct (approvals ds (S k) rest) as [acts ok]. cbn [fst snd] in *. rewrite IH.
    split.
    + intros H [|j] tb' Hj Hdj; cbn in Hj.
      * injection Hj as <-. congruence.
      * rewrite <- Nat.add_succ_comm. by apply (H j tb').
    + intros H j tb' Hj Hdj. rewrite Nat.add_succ_comm. by apply (H (S j) tb').
Qed.

(** The scan only looks at whether a cell is truthy. *)
Lemma approvals_ext ds1 ds2 k blocks :
  (forall j, truthy (ds1 j) = truthy (ds2 j)) ->
  approvals ds1 k blocks = approvals ds2 k blocks.
Proof.
  intros Hds. revert k. induction blocks as [|tb rest IH]; intros k; cbn [approvals fst snd]; [done|].
  rewrite (IH (S k)).
  destruct (name_in (tu_name tb) DANGEROUS_TOOLS); [|done].
  by rewrite (Hds k).
Qed.

(** *** Gathering the tasks *)

Lemma finished_step_length (tasks : list ToolUse) (run : ToolUse -> json)
    (slots : list (option json)) (i : nat) :
  length (match tasks !! i with
          | Some tb => <[i := Some (run tb)]> slots
          | None => slots
          end) = length slots.
Proof. destruct (tasks !! i); [apply length_insert|done]. Qed.

Lemma finished_lookup (tasks : list ToolUse) (run : ToolUse -> json)
    (c : list nat) :
  forall (slots : list (option json)) (i : nat),
    length slots = length tasks ->
    foldl (fun slots i =>
             match tasks !! i with
             | Some tb => <[i := Some (run tb)]> slots
             | None => slots
             end) slots c !! i
    = if decide (i ∈ c) then (fun tb => Some (run tb)) <$> tasks !! i
      else slots !! i.
Proof.
  induction c as [|j c IH]; intros slots i Hlen.
  { cbn. destruct (decide _) as [Hin|_]; [by apply elem_of_nil in Hin|done]. }
  cbn [foldl]. rewrite IH by (by rewrite finished_step_length).
  destruct (decide (i ∈ c)) as [Hin|Hnin].
  { destruct (decide _) as [_|Hn]; [done|]. exfalso. apply Hn. by right. }
  destruct (decide (i = j)) as [->|Hne].
  - destruct (decide _) as [_|Hn]; [|exfalso; apply Hn; by left].
    destruct (tasks !! j) as [tb|] eqn:Hj.
    + cbn. apply list_lookup_insert_eq. rewrite Hlen. by eapply lookup_lt_Some.
    + cbn. apply lookup_ge_None. rewrite Hlen. by apply lookup_ge_None.
  - destruct (decide _) as [Hin|_].
    { apply elem_of_cons in Hin as [?|?]; done. }
    destruct (tasks !! j); [by apply list_lookup_insert_ne|done].
Qed.

Lemma finished_length (tasks : list ToolUse) (run : ToolUse -> json)
    (c : list nat) :
  length (finished tasks run c) = length tasks.
Proof.
  unfold finished.
  assert (H : forall slots : list (option json),
             length (foldl (fun slots i =>
                              match tasks !! i with
                              | Some tb => <[i := Some (run tb)]> slots
                              | None => slots
                              end) slots c) = length slots).
  { induction c as [|j c IH]; intros slots; [done|].
    cbn [foldl]. by rewrite IH, finished_step_length. }
  by rewrite H, length_replicate.
Qed.

Lemma all_done_map (run : ToolUse -> json) (tasks : list ToolUse) :
  all_done (map (fun tb => Some (run tb)) tasks) = Some (map run tasks).
Proof. induction tasks as [|tb tasks IH]; [done|]. cbn. by rewrite IH. Qed.

(** Once every task has finished, [gather] returns the return values in
    the order of the tasks, whatever the order of completion. *)
Lemma gather_in_task_order (tasks : list ToolUse) (run : ToolUse -> json)
    (c : list nat) :
  Permutation c (seq 0 (length tasks)) ->
  gather tasks run c = Some (map run tasks).
Proof.
  intros Hperm. unfold gather.
  assert (Heq : finished tasks run c = map (fun tb => Some (run tb)) tasks).
  { apply list_eq. intros i. unfold finished.
    rewrite finished_lookup by (by rewrite length_replicate).
    rewrite list_lookup_fmap.
    destruct (decide (i ∈ c)) as [Hin|Hnin]; [done|].
    destruct (tasks !! i) as [tb|] eqn:Hi.
    - exfalso. apply Hnin. rewrite Hperm. apply elem_of_seq.
      apply lookup_lt_Some in Hi. lia.
    - cbn. apply lookup_ge_None. rewrite length_replicate.
      by apply lookup_ge_None. }
  rewrite Heq. apply all_done_map.
Qed.

Lemma zip_map_run (run : ToolUse -> json) (l : list ToolUse) :
  zip l (map run l) = map (fun tb => (tb, run tb)) l.
Proof. induction l as [|x l IH]; [done|]. cbn. by rewrite IH. Qed.

Lemma invocations_are_invokes tasks c :
  Forall (fun a => is_invoke a = true) (invocations tasks c).
Proof.
  unfold invocations. induction c as [|i c IH]; [done|].
  cbn. destruct (tasks !! i); cbn; [by constructor|done].
Qed.

(** *** Messages the loop appends *)

Lemma tool_use_dicts_ok (l : list ToolUse) : Forall block_ok (map tool_use_dict l).
Proof. induction l; constructor; [cbn; discriminate|done]. Qed.

Lemma zip_blocks_ok (f : ToolUse * json -> json) (l : list (ToolUse * json)) :
  (forall tb r, exists c, f (tb, r) = tool_result_dict tb c) ->
  Forall block_ok (map f l).
Proof.
  intros Hf. induction l as [|[tb r] l IH]; constructor; [|done].
  destruct (Hf tb r) as [c ->]. cbn. discriminate.
Qed.

Section WithRuntime.
Variable token_cutter : list Message -> Z -> list Message.
Variable py_repr : json -> string.
Variable system_prompt : string.
Variable now_iso : string.

Local Abbreviation do_store := (do_store now_iso).
Local Abbreviation persisted := (persisted now_iso).
Local Abbreviation dispatch := (dispatch py_repr now_iso).
Local Abbreviation iteration := (iteration token_cutter py_repr now_iso).
Local Abbreviation finalize := (finalize now_iso).
Local Abbreviation run_loop := (run_loop token_cutter py_repr now_iso).
Local Abbreviation claude_loop :=
  (claude_loop token_cutter py_repr system_prompt now_iso).
Local Abbreviation preamble := (preamble token_cutter).
Local Abbreviation step_ok := (step_ok now_iso).
Local Abbreviation exit_ok := (exit_ok now_iso).

(** A history of the data model is stored without an exception. *)
Lemma do_store_ok st :
  Forall message_ok (msgs st) ->
  exists lines,
    store_msgs now_iso (msgs st) = (lines, true) /\
    do_store st = ({| msgs := msgs st; transcript := Some lines;
                      trace := trace st ++ [StoreMsgs (msgs st)] |}, true).
Proof.
  intros Hok. destruct (MsgStoreProps.store_load now_iso _ Hok) as (lines & Hst & _).
  exists lines. split; [done|]. unfold Loop.do_store. by rewrite Hst.
Qed.

Lemma emit_emit a b st : emit a (emit b st) = emit (b ++ a) st.
Proof. unfold emit. cbn. by rewrite app_assoc. Qed.

(** With tool requests in the response, an iteration is its preamble
    followed by the dispatch. *)
Lemma iteration_dispatch tools t st c :
  outcome t = Responded c ->
  tool_uses c <> [] ->
  iteration tools t st
  = dispatch tools t (first_thinking c) (tool_uses c) (emit (preamble t st c) st).
Proof.
  intros Hc Hne. unfold Loop.iteration, Loop.preamble. rewrite Hc.
  destruct (tool_uses c) as [|tu tus] eqn:Htus; [done|].
  destruct (first_thinking c) as [[th sg]|], (first_text c) as [txt|];
    rewrite ?emit_emit; cbn [app]; done.
Qed.

(** The cancellation path of the dispatch. *)
Lemma dispatch_denied tools t th tus st :
  Forall message_ok (msgs st) ->
  let local := List.filter (fun tb => name_in (tu_name tb) tools) tus in
  snd (approvals (decisions t) 0 local) = false ->
  exists lines,
    store_msgs now_iso (msgs st) = (lines, true) /\
    dispatch tools t th tus st
    = Return {| msgs := msgs st; transcript := Some lines;
                trace := trace st ++ fst (approvals (decisions t) 0 local)
                         ++ [StoreMsgs (msgs st); Yield EvCancelled] |}.
Proof.
  intros Hok local Hden. unfold Loop.dispatch. fold local.
  destruct (approvals (decisions t) 0 local) as [acts approved].
  cbn [fst snd] in *. subst approved. cbn [negb].
  destruct (do_store_ok (emit acts st) Hok) as (lines & Hst & Hdo).
  cbn [emit msgs trace] in Hst, Hdo. rewrite Hdo.
  exists lines. split; [done|]. unfold emit. cbn [msgs transcript trace].
  by rewrite <- !app_assoc.
Qed.

(** The path of the dispatch on which the batch runs. *)
Lemma dispatch_approved tools t th tus st :
  let local := List.filter (fun tb => name_in (tu_name tb) tools) tus in
  let run := execute_tool_call tools (tool_return t) in
  local <> [] ->
  snd (approvals (decisions t) 0 local) = true ->
  Permutation (completion t) (seq 0 (length local)) ->
  dispatch tools t th tus st
  = Continue {|
      msgs := msgs st
              ++ [assistant_msg
                    (JArr (match th with
                           | Some (th, sg) => [thinking_dict th sg]
                           | None => []
                           end ++ map tool_use_dict local));
                  user_msg
                    (JArr (map (fun tb => tool_result_dict tb
                                            (result_content py_repr (run tb)))
                               local))];
      transcript := transcript st;
      trace := trace st ++ fst (approvals (decisions t) 0 local)
               ++ invocations local (completion t)
               ++ map (fun tb => Yield (EvToolResult (tu_name tb)
                                          (display_output py_repr (run tb))))
                      local |}.
Proof.
  intros local run Hne Happ Hperm. unfold Loop.dispatch. fold local. fold run.
  destruct (approvals (decisions t) 0 local) as [acts approved].
  cbn [fst snd] in *. subst approved. cbn [negb].
  rewrite (gather_in_task_order local run _ Hperm).
  destruct local as [|tb0 local0] eqn:Hlocal; [done|]. rewrite <- Hlocal.
  unfold fold_results. rewrite zip_map_run, !map_map.
  unfold append_msg, emit. cbn [msgs transcript trace].
  f_equal. f_equal.
  - by rewrite <- app_assoc.
  - by rewrite <- !app_assoc.
Qed.

(** *** Persistence on every exit *)

Lemma dispatch_ok tools t th tus st :
  Forall message_ok (msgs st) -> step_ok (dispatch tools t th tus st).
Proof.
  intros Hok.
  destruct (snd (approvals (decisions t) 0
                   (List.filter (fun tb => name_in (tu_name tb) tools) tus)))
    eqn:Happ.
  - unfold Loop.dispatch.
    destruct (approvals _ _ _) as [acts approved]. cbn [snd] in Happ.
    subst approved. cbn [negb].
    destruct (gather _ _ _) as [results|]; [|exact Hok].
    destruct (List.filter _ tus) as [|tb0 local0] eqn:Hlocal; [exact Hok|].
    unfold fold_results, append_msg, emit, step_ok. cbn [msgs].
    rewrite <- app_assoc. apply Forall_app. split; [exact Hok|].
    constructor; [|constructor; [|constructor]].
    + unfold message_ok. cbn [content assistant_msg].
      apply Forall_app. split; [|apply tool_use_dicts_ok].
      destruct th as [[? ?]|]; [|constructor].
      constructor; [cbn; discriminate|constructor].
    + unfold message_ok. cbn [content user_msg].
      apply zip_blocks_ok. intros tb r. by eexists.
  - destruct (dispatch_denied tools t th tus st Hok Happ) as (lines & Hst & ->).
    split; [exact Hok|]. split.
    + exists lines. by split.
    + cbn [trace msgs]. eexists. by rewrite app_assoc.
Qed.

Lemma iteration_ok tools t st :
  Forall message_ok (msgs st) -> step_ok (iteration tools t st).
Proof.
  intros Hok. unfold Loop.iteration.
  destruct (outcome t) as [c|ety etx]; [|exact Hok].
  set (st1 := match first_thinking c with Some _ => _ | None => _ end).
  assert (Hok1 : Forall message_ok (msgs st1)).
  { subst st1. by destruct (first_thinking c) as [[? ?]|]. }
  destruct (tool_uses c) as [|tu tus], (first_text c) as [txt|];
    try (by apply dispatch_ok); [|exact Hok1].
  set (st2 := append_msg _ st1).
  assert (Hok2 : Forall message_ok (msgs st2)).
  { subst st2. cbn [append_msg msgs]. apply Forall_app. split; [done|].
    by repeat constructor. }
  destruct (do_store_ok st2 Hok2) as (lines & _ & ->). exact Hok2.
Qed.

Lemma finalize_ok how st :
  how <> Cancelled -> Forall message_ok (msgs st) -> exit_ok (finalize how st).
Proof.
  intros Hhow Hok. unfold Loop.finalize.
  destruct (do_store_ok st Hok) as (lines & Hst & ->).
  split; [exact Hok|]. split.
  - exists lines. by split.
  - exists (trace st). cbn [emit trace msgs]. rewrite <- app_assoc.
    by destruct how.
Qed.

Lemma run_loop_ok tools script :
  forall st, Forall message_ok (msgs st) -> exit_ok (run_loop tools script st).
Proof.
  induction script as [|t rest IH]; intros st Hok; [done|].
  cbn [Loop.run_loop]. pose proof (iteration_ok tools t st Hok) as Hstep.
  destruct (iteration tools t st); cbn [step_ok] in Hstep.
  - by apply IH.
  - by apply finalize_ok.
  - by apply finalize_ok.
  - exact Hstep.
  - done.
Qed.

(** *** Who may run *)

Lemma not_invoke_call_or_ask (l : list Action) :
  Forall call_or_ask l ->
  Forall (fun a => is_invoke a = false /\ is_tool_result a = false) l.
Proof.
  intros H. eapply Forall_impl; [exact H|].
  intros [[]| | |]; cbn; done.
Qed.

(** What the dispatch adds to the trace; on the cancellation path none of
    it is an invocation or a tool result. *)
Lemma dispatch_trace tools t th tus st :
  exists acts,
    trace (step_state (dispatch tools t th tus st)) = trace st ++ acts /\
    (snd (approvals (decisions t) 0
            (List.filter (fun tb => name_in (tu_name tb) tools) tus)) = false ->
     Forall (fun a => is_invoke a = false /\ is_tool_result a = false) acts).
Proof.
  unfold Loop.dispatch.
  pose proof (approvals_actions (decisions t) 0
                (List.filter (fun tb => name_in (tu_name tb) tools) tus)) as Hacts.
  destruct (approvals _ _ _) as [acts approved]. cbn [fst snd] in *.
  destruct approved; cbn [negb].
  - destruct (gather _ _ _) as [results|].
    + destruct (List.filter _ tus) as [|tb0 local0].
      * eexists. split; [|discriminate]. cbn [step_state emit trace].
        by rewrite <- app_assoc.
      * unfold fold_results. eexists. split; [|discriminate].
        cbn [step_state append_msg emit trace]. by rewrite <- !app_assoc.
    + eexists. split; [|discriminate]. cbn [step_state emit trace].
      by rewrite <- app_assoc.
  - unfold Loop.do_store. cbn [emit msgs trace].
    destruct (store_msgs now_iso (msgs st)) as [lines []].
    + eexists. split.
      * cbn [step_state emit trace]. by rewrite <- !app_assoc.
      * intros _. apply Forall_app. split; [by apply not_invoke_call_or_ask|].
        by repeat constructor.
    + eexists. split.
      * cbn [step_state emit trace]. by rewrite <- !app_assoc.
      * intros _. apply Forall_app. split; [by apply not_invoke_call_or_ask|].
        by repeat constructor.
Qed.

(** What an iteration adds to the trace; an invocation among it means the
    approval scan of this iteration ran to its end. *)
Lemma iteration_trace tools t st :
  exists acts,
    trace (step_state (iteration tools t st)) = trace st ++ acts /\
    (Exists (fun a => is_invoke a = true) acts ->
     exists c,
       outcome t = Responded c /\
       snd (approvals (decisions t) 0
              (List.filter (fun tb => name_in (tu_name tb) tools) (tool_uses c)))
       = true).
Proof.
  destruct (outcome t) as [c|ety etx] eqn:Hc.
  2:{ unfold Loop.iteration. rewrite Hc. eexists. split.
      - cbn [step_state emit trace]. by rewrite <- app_assoc.
      - intros H. apply Exists_cons in H as [H|H]; [done|].
        apply Exists_cons in H as [H|H]; [done|]. by apply Exists_nil in H. }
  destruct (tool_uses c) as [|tu tus] eqn:Htus.
  - unfold Loop.iteration. rewrite Hc, Htus.
    assert (Hnone : forall l : list Action,
              Forall (fun a => is_invoke a = false) l ->
              Exists (fun a => is_invoke a = true) l -> False).
    { intros l Hl He. apply Exists_exists in He as (a & Ha & Hia).
      rewrite Forall_forall in Hl. specialize (Hl a Ha). congruence. }
    destruct (first_thinking c) as [[th sg]|], (first_text c) as [txt|];
      unfold Loop.do_store; cbn [append_msg emit msgs trace];
      try destruct (store_msgs _ _) as [lines []];
      (eexists; split;
       [cbn [step_state emit trace]; by rewrite <- ?app_assoc|
        intros H; exfalso; revert H; apply Hnone; by repeat constructor]).
  - rewrite (iteration_dispatch tools t st c Hc) by (by rewrite Htus).
    destruct (dispatch_trace tools t (first_thinking c) (tool_uses c)
                (emit (preamble t st c) st)) as (acts & Htr & Hden).
    exists (preamble t st c ++ acts). split.
    + rewrite Htr. cbn [emit trace]. by rewrite <- app_assoc.
    + intros He. exists c. split; [done|].
      destruct (snd (approvals _ _ _)) eqn:Happ; [done|]. exfalso.
      specialize (Hden eq_refl).
      apply Exists_app in He as [He|He].
      * unfold Loop.preamble in He.
        destruct (first_thinking c) as [[? ?]|], (first_text c);
          repeat (apply Exists_cons in He as [He|He]; [done|]);
          by apply Exists_nil in He.
      * apply Exists_exists in He as (a & Ha & Hia).
        rewrite Forall_forall in Hden. destruct (Hden a Ha). congruence.
Qed.

End WithRuntime.


(** C2. If the cell of any one privileged request of a batch is not truthy
    ([None] as created, [False], or another falsy value) when the loop
    resumes, the run ends there as [Cancelled]: the
    history is what it was before the batch and is what the transcript now
    holds (no assistant tool-use message, no tool-result message), nothing
    the iteration did is a tool invocation or a tool-result event, and the
    last event of the stream is the cancellation. *)
Theorem denial_cancels_whole_batch
    (token_cutter : list Message -> Z -> list Message)
    (py_repr : json -> string) (now_iso : string)
    (tools : list string) (t : Turn) (rest : list Turn) (st : State)
    (c : list SdkBlock) (k : nat) (tb : ToolUse) :
  Forall message_ok (msgs st) ->
  outcome t = Responded c ->
  List.filter (fun tb => name_in (tu_name tb) tools) (tool_uses c) !! k = Some tb ->
  name_in (tu_name tb) DANGEROUS_TOOLS = true ->
  truthy (decisions t k) = false ->
  exists st' acts,
    run_loop token_cutter py_repr now_iso tools (t :: rest) st
      = Finished Cancelled st' /\
    msgs st' = msgs st /\
    persisted now_iso st' /\
    load_msgs (transcript st') = Some (map strip_and_unwrap (msgs st)) /\
    trace st' = trace st ++ acts /\
    Forall (fun a => is_invoke a = false /\ is_tool_result a = false) acts /\
    last acts = Some (Yield EvCancelled).
Proof.
  intros Hok Hc Hk Hdanger Hdeny.
  set (local := List.filter (fun tb => name_in (tu_name tb) tools) (tool_uses c)) in *.
  assert (Hne : tool_uses c <> []).
  { intros Hnil. subst local. rewrite Hnil in Hk. cbn in Hk.
    by rewrite lookup_nil in Hk. }
  assert (Happ : snd (approvals (decisions t) 0 local) = false).
  { destruct (snd (approvals (decisions t) 0 local)) eqn:E; [|done].
    pose proof (proj1 (approvals_true (decisions t) 0 local) E k tb Hk Hdanger)
      as Ht.
    change (truthy (decisions t k) = true) in Ht. congruence. }
  cbn [Loop.run_loop].
  rewrite (iteration_dispatch token_cutter py_repr now_iso tools t st c Hc Hne).
  destruct (dispatch_denied py_repr now_iso tools t (first_thinking c)
              (tool_uses c) (emit (preamble token_cutter t st c) st) Hok Happ)
    as (lines & Hst & ->).
  cbn [emit msgs trace] in *. fold local.
  destruct (MsgStoreProps.store_load now_iso _ Hok) as (lines' & Hst' & Hld).
  rewrite Hst in Hst'. injection Hst' as <-.
  eexists _, (preamble token_cutter t st c
              ++ fst (approvals (decisions t) 0 local)
              ++ [StoreMsgs (msgs st); Yield EvCancelled]).
  repeat split.
  - by exists lines.
  - exact Hld.
  - cbn [trace]. by rewrite <- !app_assoc.
  - apply Forall_app. split.
    + unfold Loop.preamble.
      destruct (first_thinking c) as [[? ?]|], (first_text c);
        by repeat constructor.
    + apply Forall_app. split.
      * apply not_invoke_call_or_ask, approvals_actions.
      * by repeat constructor.
  - change [StoreMsgs (msgs st); Yield EvCancelled]
      with ([StoreMsgs (msgs st)] ++ [Yield EvCancelled]).
    rewrite !app_assoc. apply last_snoc.
Qed.

(** C7. When every privileged request of a batch is approved, the batch is
    run and, whatever the order in which the gathered invocations finish,
    the history receives the assistant message with the requests and then
    one user message whose tool-result blocks follow the order of the
    requests, each block carrying the id of its request and the output of
    that request's own invocation; the invocations themselves appear in the
    trace in the order in which they finished. *)
Theorem results_folded_in_request_order
    (token_cutter : list Message -> Z -> list Message)
    (py_repr : json -> string) (now_iso : string)
    (tools : list string) (t : Turn) (st : State) (c : list SdkBlock)
    (order : list nat) :
  let local := List.filter (fun tb => name_in (tu_name tb) tools) (tool_uses c) in
  let run := execute_tool_call tools (tool_return t) in
  outcome t = Responded c ->
  local <> [] ->
  (forall k tb, local !! k = Some tb ->
                name_in (tu_name tb) DANGEROUS_TOOLS = true ->
                truthy (decisions t k) = true) ->
  Permutation order (seq 0 (length local)) ->
  exists st',
    iteration token_cutter py_repr now_iso tools (with_completion t order) st
      = Continue st' /\
    msgs st'
    = msgs st
      ++ [assistant_msg
            (JArr (match first_thinking c with
                   | Some (th, sg) => [thinking_dict th sg]
                   | None => []
                   end ++ map tool_use_dict local));
          user_msg
            (JArr (map (fun tb => tool_result_dict tb
                                    (result_content py_repr (run tb)))
                       local))] /\
    invocations local order `sublist_of` trace st'.
Proof.
  intros local run Hc Hne Hall Hperm.
  assert (Htus : tool_uses c <> []).
  { intros Hnil. apply Hne. subst local. by rewrite Hnil. }
  rewrite (iteration_dispatch token_cutter py_repr now_iso tools
             (with_completion t order) st c Hc Htus).
  rewrite (dispatch_approved py_repr now_iso tools (with_completion t order)
             (first_thinking c) (tool_uses c)); try done.
  - eexists. split; [reflexivity|]. cbn [msgs trace emit with_completion
                                           completion decisions tool_return].
    split; [done|].
    apply sublist_inserts_l, sublist_inserts_l, sublist_inserts_r. done.
  - apply (proj2 (approvals_true _ _ _)). intros j tb Hj Hd.
    by apply (Hall j tb).
Qed.

(** C9 (amended). For every request of a batch that is run, the
    tool-result event carries the first 500 characters of the result's
    string form, so at most 500 characters; the tool-result block folded
    into the history carries the result in full: a non-empty string result
    as it is, a dict result as its whole string form. *)
Theorem tool_output_cut_for_display_only
    (token_cutter : list Message -> Z -> list Message)
    (py_repr : json -> string) (now_iso : string)
    (tools : list string) (t : Turn) (st : State) (c : list SdkBlock) :
  let local := List.filter (fun tb => name_in (tu_name tb) tools) (tool_uses c) in
  let run := execute_tool_call tools (tool_return t) in
  outcome t = Responded c ->
  local <> [] ->
  (forall k tb, local !! k = Some tb ->
                name_in (tu_name tb) DANGEROUS_TOOLS = true ->
                truthy (decisions t k) = true) ->
  Permutation (completion t) (seq 0 (length local)) ->
  exists st' blocks,
    iteration token_cutter py_repr now_iso tools t st = Continue st' /\
    last (msgs st') = Some (user_msg (JArr blocks)) /\
    forall tb, tb ∈ local ->
      Yield (EvToolResult (tu_name tb)
               (substring 0 500 (py_str py_repr (run tb)))) ∈ trace st' /\
      (String.length (display_output py_repr (run tb)) <= 500)%nat /\
      tool_result_dict tb (result_content py_repr (run tb)) ∈ blocks /\
      (forall s, run tb = JStr s -> s <> "" ->
                 result_content py_repr (run tb) = JStr s) /\
      (forall d, run tb = JObj d ->
                 result_content py_repr (run tb) = JStr (py_repr (JObj d))).
Proof.
  intros local run Hc Hne Hall Hperm.
  assert (Htus : tool_uses c <> []).
  { intros Hnil. apply Hne. subst local. by rewrite Hnil. }
  rewrite (iteration_dispatch token_cutter py_repr now_iso tools t st c Hc Htus).
  rewrite (dispatch_approved py_repr now_iso tools t
             (first_thinking c) (tool_uses c)); try done.
  2:{ apply (proj2 (approvals_true _ _ _)). intros j tb Hj Hd.
      by apply (Hall j tb). }
  eexists _, _. split; [reflexivity|]. cbn [msgs trace emit].
  split.
  { match goal with
    | |- last (?m ++ [?a; ?u]) = _ =>
        change (m ++ [a; u]) with (m ++ [a] ++ [u])
    end.
    rewrite app_assoc. apply last_snoc. }
  fold local. fold run. intros tb Htb. repeat split.
  - rewrite !elem_of_app. right. right. right.
    apply list_elem_of_fmap. by exists tb.
  - apply string_length_substring.
  - apply list_elem_of_fmap. by exists tb.
  - intros s -> Hs. cbn. apply String.eqb_neq in Hs. by rewrite Hs.
  - by intros d ->.
Qed.

(** C10 (amended). The approval gate fails closed on falsy cells.  If an
    iteration invokes any tool at all, then every privileged request of its
    batch found its cell truthy on resumption ([if not approval["approved"]]
    is the only test); and the iteration depends on the cells only through
    their truthiness, so a cell left at [None], a cell set to [False] and a
    cell holding any other falsy value lead to the same step: the
    cancellation, with the history as it was before the batch. *)
Theorem approval_gate_fails_closed
    (token_cutter : list Message -> Z -> list Message)
    (py_repr : json -> string) (now_iso : string)
    (tools : list string) (t : Turn) (st : State) :
  (exists acts,
     trace (step_state (iteration token_cutter py_repr now_iso tools t st))
       = trace st ++ acts /\
     (Exists (fun a => is_invoke a = true) acts ->
      exists c,
        outcome t = Responded c /\
        forall k tb,
          List.filter (fun tb => name_in (tu_name tb) tools) (tool_uses c) !! k
            = Some tb ->
          name_in (tu_name tb) DANGEROUS_TOOLS = true ->
          truthy (decisions t k) = true)) /\
  (forall ds,
     (forall k, truthy (ds k) = truthy (decisions t k)) ->
     iteration token_cutter py_repr now_iso tools (with_decisions t ds) st
     = iteration token_cutter py_repr now_iso tools t st) /\
  (forall c k tb,
     Forall message_ok (msgs st) ->
     outcome t = Responded c ->
     List.filter (fun tb => name_in (tu_name tb) tools) (tool_uses c) !! k
       = Some tb ->
     name_in (tu_name tb) DANGEROUS_TOOLS = true ->
     truthy (decisions t k) = false ->
     exists st',
       iteration token_cutter py_repr now_iso tools t st = Return st' /\
       msgs st' = msgs st /\
       last (trace st') = Some (Yield EvCancelled)).
Proof.
  split; [|split].
  - destruct (iteration_trace token_cutter py_repr now_iso tools t st)
      as (acts & Htr & Hinv).
    exists acts. split; [done|]. intros He.
    destruct (Hinv He) as (c & Hc & Happ). exists c. split; [done|].
    intros k tb Hk Hd.
    exact (proj1 (approvals_true (decisions t) 0 _) Happ k tb Hk Hd).
  - intros ds Hds. unfold Loop.iteration, Loop.dispatch, trimmed_loop_msgs,
      reminders. cbn [with_decisions outcome decisions file_changes
                      plan_reminder tool_return completion].
    destruct (outcome t) as [c|]; [|done].
    destruct (tool_uses c) as [|tu tus]; [done|].
    by rewrite !(approvals_ext ds (decisions t) 0 _ Hds).
  - intros c k tb Hok Hc Hk Hdanger Hdeny.
    set (local := List.filter (fun tb => name_in (tu_name tb) tools)
                              (tool_uses c)) in *.
    assert (Hne : tool_uses c <> []).
    { intros Hnil. subst local. rewrite Hnil in Hk. cbn in Hk.
      by rewrite lookup_nil in Hk. }
    assert (Happ : snd (approvals (decisions t) 0 local) = false).
    { destruct (snd (approvals (decisions t) 0 local)) eqn:E; [|done].
      pose proof (proj1 (approvals_true (decisions t) 0 local) E k tb Hk Hdanger)
        as Ht.
      change (truthy (decisions t k) = true) in Ht. congruence. }
    rewrite (iteration_dispatch token_cutter py_repr now_iso tools t st c Hc Hne).
    destruct (dispatch_denied py_repr now_iso tools t (first_thinking c)
                (tool_uses c) (emit (preamble token_cutter t st c) st) Hok Happ)
      as (lines & Hst & ->).
    eexists. split; [reflexivity|]. split; [done|]. cbn [trace].
    change [StoreMsgs (msgs (emit (preamble token_cutter t st c) st));
            Yield EvCancelled]
      with ([StoreMsgs (msgs (emit (preamble token_cutter t st c) st))]
            ++ [Yield EvCancelled]).
    rewrite !app_assoc. apply last_snoc.
Qed.

(** *** The properties on sample runs *)

Import LoopExamples.

(** A run that ends with a final answer, one that ends on a failed model
    call and one that ends on a denial. *)
Example run_done :
  exists st,
    claude_loop trim repr "sys" "t0" "hi" None []
      [batch_turn approve_all [1; 0]%nat; final_turn] = Some (Finished Done st) /\
    last (trace st) = Some (Yield EvDone) /\
    length (msgs st) = 5%nat.
Proof. vm_compute. eexists. repeat split. Qed.

Example run_error :
  exists st,
    claude_loop trim repr "sys" "t0" "hi" None [] [failed_turn]
      = Some (Finished Error st) /\
    trace st = [Yield (EvStatus "starting...");
                ModelCall (msgs st);
                Yield (EvError "Error: APIError: overloaded");
                StoreMsgs (msgs st);
                Yield EvDone].
Proof. vm_compute. eexists. repeat split. Qed.

Example run_cancelled :
  exists st,
    claude_loop trim repr "sys" "t0" "hi" None []
      [batch_turn deny_second [0; 1]%nat; final_turn]
      = Some (Finished Cancelled st) /\
    length (msgs st) = 2%nat.
Proof. vm_compute. eexists. repeat split. Qed.


Lemma denial_cancels_whole_batch_witness :
  exists st' acts,
    run_loop trim repr "t0" default_tools
      [batch_turn deny_second [0; 1]%nat; final_turn] start
      = Finished Cancelled st' /\
    msgs st' = msgs start /\
    persisted "t0" st' /\
    load_msgs (transcript st') = Some (map strip_and_unwrap (msgs start)) /\
    trace st' = trace start ++ acts /\
    Forall (fun a => is_invoke a = false /\ is_tool_result a = false) acts /\
    last acts = Some (Yield EvCancelled).
Proof.
  apply (denial_cancels_whole_batch trim repr "t0" default_tools
           (batch_turn deny_second [0; 1]%nat) [final_turn] start
           batch_content 1%nat bash_ls).
  - by repeat constructor.
  - reflexivity.
  - reflexivity.
  - reflexivity.
  - reflexivity.
Defined.

Lemma results_folded_in_request_order_witness :
  exists st',
    iteration trim repr "t0" default_tools
      (with_completion (batch_turn approve_all []) [1; 0]%nat) start
      = Continue st' /\
    msgs st'
    = msgs start
      ++ [assistant_msg (JArr [thinking_dict "hm" "sig";
                               tool_use_dict read_a; tool_use_dict bash_ls]);
          user_msg (JArr [tool_result_dict read_a (JStr "output of t1");
                          tool_result_dict bash_ls (JStr "output of t2")])] /\
    [Invoke bash_ls; Invoke read_a] `sublist_of` trace st'.
Proof.
  apply (results_folded_in_request_order trim repr "t0" default_tools
           (batch_turn approve_all []) start batch_content [1; 0]%nat).
  - reflexivity.
  - discriminate.
  - reflexivity.
  - apply perm_swap.
Defined.

(** C9 as stated fails for the history: a tool output of 501 characters is
    cut to 500 in the event, but the tool-result block appended to the
    history holds all 501. *)
Lemma history_keeps_whole_tool_output :
  exists st',
    iteration trim repr "t0" default_tools long_turn start = Continue st' /\
    Yield (EvToolResult "read_" (repeat_char 500 "a"%char)) ∈ trace st' /\
    last (msgs st')
    = Some (user_msg (JArr [tool_result_dict read_a (JStr long_output)])) /\
    String.length long_output = 501%nat.
Proof.
  eexists. split; [vm_compute; reflexivity|]. split.
  - apply list_elem_of_In. vm_compute. tauto.
  - split; vm_compute; reflexivity.
Qed.

Lemma tool_output_cut_for_display_only_witness :
  exists st' blocks,
    iteration trim repr "t0" default_tools long_turn start = Continue st' /\
    last (msgs st') = Some (user_msg (JArr blocks)) /\
    (String.length (display_output repr (JStr long_output)) <= 500)%nat /\
    tool_result_dict read_a (JStr long_output) ∈ blocks.
Proof.
  destruct (tool_output_cut_for_display_only trim repr "t0" default_tools
              long_turn start [ToolUseBlock read_a])
    as (st' & blocks & Hit & Hlast & Hall).
  - reflexivity.
  - discriminate.
  - intros [|k] tb Hk Hd; cbn in Hk; [injection Hk as <-|]; discriminate.
  - reflexivity.
  - exists st', blocks. split; [exact Hit|]. split; [exact Hlast|].
    destruct (Hall read_a) as (_ & Hlen & Hin & _); [by left|].
    split; [exact Hlen|exact Hin].
Defined.

(** C10 as stated fails: a cell holding the string "no" is not [True], yet
    the privileged request [bash_ls] is invoked and its result folded into
    the history. *)
Lemma approval_gate_runs_on_truthy_cell :
  decisions (batch_turn say_no [0; 1]%nat) 1 <> JBool true /\
  name_in (tu_name bash_ls) DANGEROUS_TOOLS = true /\
  exists st',
    iteration trim repr "t0" default_tools (batch_turn say_no [0; 1]%nat) start
      = Continue st' /\
    Invoke bash_ls ∈ trace st' /\
    last (msgs st')
    = Some (user_msg (JArr [tool_result_dict read_a (JStr "output of t1");
                            tool_result_dict bash_ls (JStr "output of t2")])).
Proof.
  split; [discriminate|]. split; [reflexivity|].
  eexists. split; [vm_compute; reflexivity|]. split.
  - apply list_elem_of_In. vm_compute. tauto.
  - vm_compute. reflexivity.
Qed.

Lemma approval_gate_fails_closed_witness :
  iteration trim repr "t0" default_tools
    (with_decisions (batch_turn (fun _ => JNull) [0; 1]%nat) (fun _ => JBool false))
    start
  = iteration trim repr "t0" default_tools
      (batch_turn (fun _ => JNull) [0; 1]%nat) start /\
  exists st',
    iteration trim repr "t0" default_tools
      (batch_turn (fun _ => JNull) [0; 1]%nat) start = Return st' /\
    msgs st' = msgs start /\
    last (trace st') = Some (Yield EvCancelled).
Proof.
  destruct (approval_gate_fails_closed trim repr "t0" default_tools
              (batch_turn (fun _ => JNull) [0; 1]%nat) start)
    as (_ & Hsame & Hcancel).
  split.
  - apply Hsame. intros k. reflexivity.
  - apply (Hcancel batch_content 1%nat bash_ls).
    + by repeat constructor.
    + reflexivity.
    + reflexivity.
    + reflexivity.
    + reflexivity.
Defined.

End LoopProps.

(** ** Plan tracker: further properties *)

Module PlanExtra.
Import Plan PlanView.

Lemma make_key_inj p q : _make_key p = _make_key q -> p = q.
Proof.
  unfold _make_key, app_name. intros H. simpl in H. by injection H.
Qed.

(** Reading a plan leaves every other key of the store alone. *)
Lemma get_plan_other_key now project st st1 o k :
  get_plan now project st = (st1, o) ->
  k <> _make_key project ->
  st1 !! k = st !! k.
Proof.
  unfold get_plan, _get. intros Hget Hk.
  destruct (st !! _make_key project) as [e|]; [|by injection Hget as <- _].
  destruct (now >? expiry e); injection Hget as <- _; [|done].
  by apply lookup_delete_ne.
Qed.

(** Reading again at the same clock reading gives the same answer. *)
Lemma get_plan_idem now project st st1 o :
  get_plan now project st = (st1, o) ->
  snd (get_plan now project st1) = o.
Proof.
  unfold get_plan, _get.
  destruct (st !! _make_key project) as [e|] eqn:He.
  - destruct (now >? expiry e) eqn:E; intros [= <- <-].
    + by rewrite lookup_delete_eq.
    + by rewrite He, E.
  - intros [= <- <-]. by rewrite He.
Qed.

(** Decides, for one branch of a tool, which of the two shapes it has. *)
Ltac store_shape :=
  cbn [fst snd reports_success];
  first [ left; split; [reflexivity|];
          first [left; reflexivity | right; reflexivity]
        | right; split; [reflexivity|]; eexists; reflexivity ].

Section Tools.
Variable json_loads : string -> option json.
Variable int_of_str : string -> option Z.

Local Abbreviation make_plan := (make_plan json_loads).
Local Abbreviation update_step := (update_step int_of_str).
Local Abbreviation exec := (exec json_loads int_of_str).
Local Abbreviation run := (run json_loads int_of_str).

(** Where the store of a tool call comes from: a call that does not report
    success leaves the store as it was, up to the removal of the project's
    expired entry by the read; a call that reports success has written the
    project's entry on top of that. *)
Lemma exec_store_shape op st :
  exists st1 o,
    get_plan (op_time op) (op_project op) st = (st1, o) /\
    ((reports_success (snd (exec op st)) = false /\
      (fst (exec op st) = st \/ fst (exec op st) = st1)) \/
     (reports_success (snd (exec op st)) = true /\
      exists p', fst (exec op st)
                 = set_plan (op_time op) (op_project op) p' st1)).
Proof.
  destruct (get_plan (op_time op) (op_project op) st) as [st1 o] eqn:Hget.
  exists st1, o. split; [done|].
  destruct op as [now content project|now arg status findings project
                 |now desc project]; cbn [exec op_time op_project] in *.
  - unfold Plan.make_plan. rewrite Hget.
    repeat case_match; store_shape.
  - unfold Plan.update_step. rewrite Hget.
    destruct o as [plan|]; [|store_shape].
    destruct (resolve_step_index int_of_str arg plan) as [i|s]; [|store_shape].
    destruct ((i <? 0) || _); [store_shape|].
    destruct (str_truthy status).
    + destruct (negb (status_valid _)); [store_shape|].
      destruct (list_assign (step_statuses plan) i _); [|store_shape].
      destruct (str_truthy findings); [|store_shape].
      cbn [step_findings].
      destruct (list_assign (step_findings plan) i _); store_shape.
    + destruct (str_truthy findings); [|store_shape].
      destruct (list_assign (step_findings plan) i _); store_shape.
  - unfold Plan.add_step. rewrite Hget.
    repeat case_match; store_shape.
Qed.

End Tools.

(** A plan tool call that does not report success leaves the plan of its
    project exactly as a reader at that moment would have found it: nothing
    is half-written on an error. *)
Theorem failed_call_keeps_plan
    (json_loads : string -> option json) (int_of_str : string -> option Z)
    (op : Op) (st : Store) :
  reports_success (snd (exec json_loads int_of_str op st)) = false ->
  snd (get_plan (op_time op) (op_project op)
         (fst (exec json_loads int_of_str op st)))
  = snd (get_plan (op_time op) (op_project op) st).
Proof.
  intros Hfail.
  destruct (exec_store_shape json_loads int_of_str op st)
    as (st1 & o & Hget & [[_ [-> | ->]]|[Hs _]]).
  - done.
  - rewrite Hget. cbn. by eapply get_plan_idem.
  - congruence.
Qed.

(** Plans are kept per project: a plan tool call for one project changes
    nothing in the store for any other project. *)
Theorem other_projects_untouched
    (json_loads : string -> option json) (int_of_str : string -> option Z)
    (op : Op) (st : Store) (other : string) :
  other <> op_project op ->
  fst (exec json_loads int_of_str op st) !! _make_key other
  = st !! _make_key other.
Proof.
  intros Hne.
  assert (Hk : _make_key other <> _make_key (op_project op)).
  { intros H. by apply Hne, make_key_inj. }
  destruct (exec_store_shape json_loads int_of_str op st)
    as (st1 & o & Hget & [[_ [-> | ->]]|[_ [p' ->]]]).
  - done.
  - by eapply get_plan_other_key.
  - unfold set_plan, _set_with_ttl. rewrite lookup_insert_ne by done.
    by eapply get_plan_other_key.
Qed.

(** The time to live: a plan written at time [t] is read back unchanged at
    any time up to [t + 3600]; read later it is absent, the read removes
    its entry, and [update_step] and [add_step] answer that no plan
    exists. *)
Theorem plan_expires_after_an_hour
    (int_of_str : string -> option Z)
    (t t' : Z) (project : string) (p : Plan) (st : Store) :
  let written := set_plan t project p st in
  (t' <= t + 3600 -> get_plan t' project written = (written, Some p)) /\
  (t + 3600 < t' ->
   get_plan t' project written = (delete (_make_key project) written, None) /\
   forall arg status findings desc,
     update_step int_of_str t' arg status findings project written
       = (delete (_make_key project) written,
          ErrorText "Error: No plan exists. Create a plan first.") /\
     add_step t' desc project written
       = (delete (_make_key project) written,
          ErrorText "Error: No plan exists. Create a plan first.")).
Proof.
  intros written.
  assert (Hlook : written !! _make_key project = Some (mkEntry p (t + 3600))).
  { apply lookup_insert_eq. }
  split.
  - intros Ht. unfold get_plan, _get. rewrite Hlook. cbn.
    destruct (t' >? t + 3600) eqn:E; [lia|done].
  - intros Ht.
    assert (Hget : get_plan t' project written
                   = (delete (_make_key project) written, None)).
    { unfold get_plan, _get. rewrite Hlook. cbn.
      destruct (t' >? t + 3600) eqn:E; [done|lia]. }
    split; [done|]. intros arg status findings desc.
    unfold update_step, add_step. by rewrite Hget.
Qed.

(** *** What every stored plan looks like *)

Lemma store_wf_empty : store_wf ∅.
Proof. intros k e H. rewrite lookup_empty in H. discriminate. Qed.

Lemma store_wf_delete k st : store_wf st -> store_wf (delete k st).
Proof.
  intros Hwf k' e H.
  destruct (decide (k = k')) as [Heq|Hne].
  - subst k'. rewrite lookup_delete_eq in H. discriminate.
  - rewrite lookup_delete_ne in H by done. eauto.
Qed.

Lemma store_wf_set now project p st :
  store_wf st -> plan_wf p -> store_wf (set_plan now project p st).
Proof.
  intros Hwf Hp k e H. unfold set_plan, _set_with_ttl in H.
  destruct (decide (_make_key project = k)) as [Heq|Hne].
  - subst k. rewrite lookup_insert_eq in H. injection H as <-. exact Hp.
  - rewrite lookup_insert_ne in H by done. eauto.
Qed.

Lemma get_plan_wf now project st st1 o :
  get_plan now project st = (st1, o) ->
  store_wf st ->
  store_wf st1 /\ (forall p, o = Some p -> plan_wf p).
Proof.
  unfold get_plan, _get. intros Hget Hwf.
  destruct (st !! _make_key project) as [e|] eqn:He.
  - destruct (now >? expiry e).
    + injection Hget as <- <-. split; [by apply store_wf_delete|discriminate].
    + injection Hget as <- <-. split; [done|].
      intros p [= <-]. eauto.
  - injection Hget as <- <-. split; [done|discriminate].
Qed.

Lemma status_valid_completed : status_valid "completed" = true.
Proof. reflexivity. Qed.

Section Invariant.
Variable json_loads : string -> option json.
Variable int_of_str : string -> option Z.

Lemma exec_wf op st :
  store_wf st -> store_wf (fst (exec json_loads int_of_str op st)).
Proof.
  intros Hwf.
  destruct op as [now content project|now arg status findings project
                 |now desc project]; cbn [exec].
  - unfold make_plan.
    destruct (String.eqb content ""); [done|].
    destruct (json_loads content) as [plan_data|]; [|done].
    destruct (py_in "title" plan_data) as [[]|]; [|done|done].
    destruct (py_in "steps" plan_data) as [[]|]; [|done|done].
    destruct plan_data; try done.
    destruct (dict_get "steps" kv) as [[| | | |[|s ss]|]|]; try done.
    destruct (get_plan now project st) as [st1 prev] eqn:Hget.
    destruct (get_plan_wf _ _ _ _ _ Hget Hwf) as [Hwf1 _].
    cbn [fst]. apply store_wf_set; [done|].
    repeat split; cbn [steps step_statuses step_findings current_step_index].
    + by rewrite length_replicate.
    + by rewrite !length_replicate.
    + lia.
    + lia.
    + done.
    + apply Forall_replicate. reflexivity.
  - destruct (get_plan now project st) as [st1 [plan|]] eqn:Hget;
      destruct (get_plan_wf _ _ _ _ _ Hget Hwf) as [Hwf1 Hp].
    2:{ unfold update_step. by rewrite Hget. }
    destruct (Hp plan eq_refl) as (Hlen & Hidx & Hne & Hval).
    destruct (PlanProps.update_step_cases int_of_str now arg status findings
                project st st1 plan Hget Hlen)
      as [(-> & _)|(i & plan' & _ & Hi & Hv & -> & Hst & Hss & Hfs & Hcur)];
      [done|].
    cbn [fst]. apply store_wf_set; [done|].
    destruct Hlen as [Hl1 Hl2].
    repeat split.
    + rewrite Hst, Hss. destruct (str_truthy status); [|done].
      by rewrite length_insert.
    + rewrite Hss, Hfs.
      destruct (str_truthy status), (str_truthy findings);
        rewrite ?length_insert; done.
    + rewrite Hcur. destruct (_ && _); lia.
    + rewrite Hcur, Hst. destruct (_ && _); lia.
    + by rewrite Hst.
    + rewrite Hss. destruct (str_truthy status) eqn:Hs; [|done].
      apply Forall_insert; [done|]. by apply Hv.
  - unfold add_step.
    destruct (get_plan now project st) as [st1 [plan|]] eqn:Hget;
      destruct (get_plan_wf _ _ _ _ _ Hget Hwf) as [Hwf1 Hp]; [|done].
    destruct (Hp plan eq_refl) as ([Hl1 Hl2] & Hidx & Hne & Hval).
    cbn [fst]. apply store_wf_set; [done|].
    repeat split; cbn [steps step_statuses step_findings current_step_index].
    + rewrite !length_app. cbn. lia.
    + rewrite !length_app. cbn. lia.
    + lia.
    + rewrite length_app. cbn. lia.
    + by destruct (steps plan).
    + apply Forall_app. split; [done|]. by repeat constructor.
Qed.

Lemma run_wf ops st :
  store_wf st -> store_wf (run json_loads int_of_str ops st).
Proof.
  revert st. induction ops as [|op ops IH]; intros st Hwf; [done|].
  cbn. apply IH. by apply exec_wf.
Qed.

End Invariant.

(** Whatever sequence of [make_plan], [update_step] and [add_step] calls
    has run since the store was empty, every stored plan has at least one
    step, its [current_step_index] lies between 0 and [len(steps)]
    inclusive, and each of its statuses is one of the four status words. *)
Theorem stored_plan_shape
    (json_loads : string -> option json) (int_of_str : string -> option Z)
    (ops : list Op) (k : string) (e : Entry) :
  run json_loads int_of_str ops ∅ !! k = Some e ->
  steps (value e) <> [] /\
  0 <= current_step_index (value e) <= Z.of_nat (length (steps (value e))) /\
  Forall (fun s => s ∈ valid_statuses) (step_statuses (value e)).
Proof.
  intros Hk.
  destruct (run_wf json_loads int_of_str ops ∅ store_wf_empty k e Hk)
    as (_ & Hidx & Hne & Hval).
  repeat split; try done; try lia.
  eapply Forall_impl; [exact Hval|]. intros s Hs.
  unfold status_valid in Hs. apply existsb_exists in Hs as (v & Hin & Hv).
  apply String.eqb_eq in Hv. subst v. by apply list_elem_of_In.
Qed.

(** *** The reminder and the completion check *)

Lemma py_index_in_range {A} (l : list A) (i : Z) :
  0 <= i < Z.of_nat (length l) -> py_index l i = l !! Z.to_nat i.
Proof.
  intros [H1 H2]. unfold py_index.
  destruct (0 <=? i) eqn:E1; [|lia].
  destruct (i <? Z.of_nat (length l)) eqn:E2; [done|lia].
Qed.

Lemma py_slice_from_nonneg {A} (l : list A) (i : Z) :
  0 <= i -> py_slice_from l i = drop (Z.to_nat i) l.
Proof. intros H. unfold py_slice_from. destruct (0 <=? i) eqn:E; [done|lia]. Qed.

Lemma filter_length_bound {A} (f : A -> bool) (l : list A) :
  (length (List.filter f l) <= length l)%nat.
Proof. induction l as [|x l IH]; cbn; [lia|]. destruct (f x); cbn; lia. Qed.

Lemma filter_length_all {A} (f : A -> bool) (l : list A) :
  length (List.filter f l) = length l <-> Forall (fun x => f x = true) l.
Proof.
  induction l as [|x l IH]; cbn; [by split|].
  pose proof (filter_length_bound f l) as Hle.
  destruct (f x) eqn:E; cbn.
  - split.
    + intros H. constructor; [done|]. apply IH. lia.
    + intros H. apply Forall_cons in H as [_ H]. apply IH in H. lia.
  - split; [lia|]. intros H. apply Forall_cons in H as [H _]. congruence.
Qed.

(** The reminder computed at the start of every loop iteration never
    raises on a stored plan: it reports that all steps are completed
    exactly when [current_step_index] equals [len(steps)], and otherwise it
    focuses on step [current_step_index + 1] (counted from one) and counts
    as remaining at most the steps from the current one on. *)
Theorem reminder_on_stored_plan
    (json_loads : string -> option json) (int_of_str : string -> option Z)
    (ops : list Op) (k : string) (e : Entry) :
  run json_loads int_of_str ops ∅ !! k = Some e ->
  let p := value e in
  let n := Z.of_nat (length (steps p)) in
  (current_step_index p = n ->
   get_contextual_plan_reminder (Some p) = AllCompleted) /\
  (current_step_index p < n ->
   exists step status remaining findings next,
     get_contextual_plan_reminder (Some p)
       = Focus (current_step_index p + 1) step status remaining findings next /\
     steps p !! Z.to_nat (current_step_index p) = Some step /\
     step_statuses p !! Z.to_nat (current_step_index p) = Some status /\
     Z.of_nat remaining <= n - current_step_index p).
Proof.
  intros Hk p n.
  destruct (run_wf json_loads int_of_str ops ∅ store_wf_empty k e Hk)
    as ([Hl1 Hl2] & Hidx & Hne & Hval).
  fold p in Hl1, Hl2, Hidx. fold n in Hidx.
  unfold get_contextual_plan_reminder. fold n. split.
  - intros Heq. destruct (current_step_index p >=? n) eqn:E; [done|lia].
  - intros Hlt. destruct (current_step_index p >=? n) eqn:E; [lia|].
    rewrite !py_index_in_range by (subst n; lia).
    destruct (lookup_lt_is_Some_2 (steps p) (Z.to_nat (current_step_index p)))
      as [step Hstep]; [subst n; lia|].
    destruct (lookup_lt_is_Some_2 (step_statuses p)
                (Z.to_nat (current_step_index p)))
      as [status Hstatus]; [subst n; lia|].
    destruct (lookup_lt_is_Some_2 (step_findings p)
                (Z.to_nat (current_step_index p)))
      as [fnd Hfnd]; [subst n; lia|].
    rewrite Hstep, Hstatus, Hfnd.
    eexists _, _, _, _, _. split; [reflexivity|]. split; [done|].
    split; [done|].
    rewrite py_slice_from_nonneg by lia. unfold count_open.
    pose proof (filter_length_bound
                  (fun s => negb (String.eqb s "completed"))
                  (drop (Z.to_nat (current_step_index p)) (step_statuses p)))
      as Hle.
    rewrite length_drop in Hle. subst n. lia.
Qed.

(** [check_plan_completion] answers [True] exactly for a plan that has
    steps and statuses and whose statuses are all ["completed"]. *)
Theorem completion_check_true_iff (p : Plan) :
  fst (check_plan_completion (Some p)) = true <->
  steps p <> [] /\ step_statuses p <> [] /\
  Forall (fun s => s = "completed") (step_statuses p).
Proof.
  unfold check_plan_completion.
  destruct (step_statuses p) as [|s0 ss] eqn:Hss.
  { cbn. split; [discriminate|]. by intros (_ & H & _). }
  destruct (steps p) as [|x xs] eqn:Hst.
  { cbn. split; [discriminate|]. by intros (H & _). }
  unfold count_status.
  pose proof (filter_length_all (String.eqb "completed") (s0 :: ss)) as Hall.
  destruct (_ =? _)%nat eqn:E.
  - cbn [fst]. split; [|done]. intros _. repeat split; try done.
    apply Nat.eqb_eq in E. apply Hall in E.
    eapply Forall_impl; [exact E|]. intros s Hs.
    by apply String.eqb_eq in Hs.
  - apply Nat.eqb_neq in E.
    assert (Hno : ~ Forall (fun s => s = "completed") (s0 :: ss)).
    { intros HF. apply E, Hall. eapply Forall_impl; [exact HF|].
      intros s ->. reflexivity. }
    destruct (0 <? _)%nat; cbn [fst]; (split; [discriminate|]);
      by intros (_ & _ & HF).
Qed.

(** *** Replies of the tools *)

(** [make_plan] reports success exactly when its content is not empty and
    parses to a dict that has a title and a non-empty list of steps; the
    plan it then stores has those steps, every status ["not_started"], all
    findings empty and the focus on step 0, whatever plan was there
    before. *)
Theorem make_plan_success_iff
    (json_loads : string -> option json)
    (now : Z) (content project : string) (st : Store) :
  let res := make_plan json_loads now content project st in
  (reports_success (snd res) = true <->
   content <> "" /\
   exists kv s ss,
     json_loads content = Some (JObj kv) /\
     dict_has "title" kv = true /\
     dict_get "steps" kv = Some (JArr (s :: ss))) /\
  (reports_success (snd res) = true ->
   exists p replaced,
     snd res = PlanCreated p replaced /\
     snd (get_plan now project (fst res)) = Some p /\
     step_statuses p = replicate (length (steps p)) "not_started" /\
     step_findings p = replicate (length (steps p)) "" /\
     current_step_index p = 0).
Proof.
  intros res. subst res. unfold make_plan.
  destruct (String.eqb content "") eqn:Hc.
  { apply String.eqb_eq in Hc. cbn. split; [|discriminate].
    split; [discriminate|]. by intros [H _]. }
  apply String.eqb_neq in Hc.
  destruct (json_loads content) as [plan_data|].
  2:{ cbn. split; [|discriminate]. split; [discriminate|].
      by intros (_ & ? & ? & ? & ? & _). }
  assert (Hnot : forall r : Store * Reply,
            reports_success (snd r) = false ->
            (forall kv s ss, Some plan_data = Some (JObj kv) ->
                             dict_has "title" kv = true ->
                             dict_get "steps" kv = Some (JArr (s :: ss)) -> False) ->
            (reports_success (snd r) = true <->
             content <> "" /\
             exists kv s ss, Some plan_data = Some (JObj kv) /\
                             dict_has "title" kv = true /\
                             dict_get "steps" kv = Some (JArr (s :: ss))) /\
            (reports_success (snd r) = true ->
             exists p replaced,
               snd r = PlanCreated p replaced /\
               snd (get_plan now project (fst r)) = Some p /\
               step_statuses p = replicate (length (steps p)) "not_started" /\
               step_findings p = replicate (length (steps p)) "" /\
               current_step_index p = 0)).
  { intros r Hr Hno. rewrite Hr. split; [|discriminate].
    split; [discriminate|]. intros (_ & kv & s & ss & H1 & H2 & H3).
    exfalso. eauto. }
  destruct plan_data as [|b|z|s|l|kv]; cbn [py_in];
    try (apply Hnot; [reflexivity|intros ? ? ? [=]]).
  - destruct (index 0 "title" s); [destruct (index 0 "steps" s)|];
      (apply Hnot; [reflexivity|intros ? ? ? [=]]).
  - destruct (existsb _ l); [destruct (existsb _ l)|];
      (apply Hnot; [reflexivity|intros ? ? ? [=]]).
  - destruct (dict_has "title" kv) eqn:Ht.
    2:{ apply Hnot; [reflexivity|]. intros ? ? ? [= <-]. congruence. }
    destruct (dict_has "steps" kv) eqn:Hs.
    2:{ apply Hnot; [reflexivity|]. intros ? ? ? [= <-] _ Hg.
        unfold dict_has in Hs. by rewrite Hg in Hs. }
    destruct (dict_get "steps" kv) as [[| | | |[|s ss]|]|] eqn:Hg;
      try (apply Hnot; [reflexivity|]; intros ? ? ? [= <-] _; congruence).
    destruct (get_plan now project st) as [st1 prev]. cbn [fst snd].
    split.
    + split; [|done]. intros _. split; [done|]. by exists kv, s, ss.
    + intros _. eexists _, _. split; [reflexivity|].
      split; [apply PlanProps.get_plan_set|]. done.
Qed.

(** The error replies of [update_step] on an existing plan: a string that
    is not an integer, an index outside [0, len(steps)) (also the implicit
    index of a plan whose steps are all completed), and an unknown status
    word each give their own message, and none of them writes. *)
Theorem update_step_errors
    (int_of_str : string -> option Z)
    (now : Z) (arg : option StepArg) (status findings : option string)
    (project : string) (st st1 : Store) (plan : Plan) :
  get_plan now project st = (st1, Some plan) ->
  let res := update_step int_of_str now arg status findings project st in
  let n := Z.of_nat (length (steps plan)) in
  (forall s, resolve_step_index int_of_str arg plan = inr s ->
             res = (st1, BadStepIndex s)) /\
  (forall i, resolve_step_index int_of_str arg plan = inl i ->
             i < 0 \/ n <= i ->
             res = (st1, InvalidIndex i (n - 1))) /\
  (forall i s, resolve_step_index int_of_str arg plan = inl i ->
               0 <= i < n ->
               status = Some s -> s <> "" -> s ∉ valid_statuses ->
               res = (st1, ErrorText "Error: Invalid status. Use: not_started, in_progress, completed, blocked")).
Proof.
  intros Hget res n. subst res n. unfold update_step. rewrite Hget.
  repeat split.
  - by intros s ->.
  - intros i -> Hi.
    destruct ((i <? 0) || (i >=? _)) eqn:E; [done|].
    rewrite Z.geb_leb in E. lia.
  - intros i s -> Hi -> Hs Hbad.
    destruct ((i <? 0) || (i >=? _)) eqn:E.
    { rewrite Z.geb_leb in E. lia. }
    cbn [str_truthy default from_option id].
    apply String.eqb_neq in Hs. rewrite Hs. cbn [negb].
    destruct (status_valid s) eqn:Hv; [|reflexivity].
    exfalso. apply Hbad. unfold status_valid in Hv.
    apply existsb_exists in Hv as (v & Hin & Hv).
    apply String.eqb_eq in Hv. subst v. by apply list_elem_of_In.
Qed.

(** *** Working through a plan *)

(** Arithmetic with a decided [>=?] among the hypotheses. *)
Ltac geb_lia :=
  repeat match goal with
         | H : (_ >=? _) = _ |- _ => rewrite Z.geb_leb in H
         | H : (_ <=? _) = true |- _ => apply Z.leb_le in H
         | H : (_ <=? _) = false |- _ => apply Z.leb_gt in H
         end;
  lia.

Lemma get_plan_live now t project p st :
  now <= t + 3600 ->
  get_plan now project (set_plan t project p st)
  = (set_plan t project p st, Some p).
Proof.
  intros Ht. unfold get_plan, _get, set_plan, _set_with_ttl.
  rewrite lookup_insert_eq. cbn.
  destruct (now >? t + 3600) eqn:E; [lia|done].
Qed.

Lemma count_open_not_started m :
  count_open (replicate m "not_started") = m.
Proof. unfold count_open. induction m as [|m IH]; cbn; [done|]. by rewrite IH. Qed.

Lemma insert_next_completed (c m : nat) :
  <[c := "completed"]> (replicate c "completed" ++ replicate (S m) "not_started")
  = replicate (S c) "completed" ++ replicate m "not_started".
Proof.
  rewrite (replicate_S_end c), <- app_assoc.
  rewrite insert_app_r_alt by (by rewrite length_replicate).
  rewrite length_replicate, Nat.sub_diag. done.
Qed.

Lemma progressed_lengths c p : progressed c p -> lengths_ok p.
Proof.
  intros (Hc & _ & Hss & Hf). unfold lengths_ok.
  rewrite Hss, length_app, !length_replicate. lia.
Qed.

(** After [add_step] on a plan whose steps were all completed, the step
    just added is the current one: the plan is no longer reported as
    completed and the reminder focuses on the new step. *)
Theorem add_step_reopens_completed_plan
    (now : Z) (desc project : string) (st st1 : Store) (plan : Plan) :
  get_plan now project st = (st1, Some plan) ->
  lengths_ok plan ->
  current_step_index plan = Z.of_nat (length (steps plan)) ->
  get_contextual_plan_reminder (Some plan) = AllCompleted /\
  exists plan',
    add_step now desc project st
      = (set_plan now project plan' st1,
         StepAdded desc (S (length (steps plan)))
                   (current_step_index plan + 1)) /\
    steps plan' = steps plan ++ [JStr desc] /\
    current_step_index plan' = current_step_index plan /\
    get_contextual_plan_reminder (Some plan')
      = Focus (Z.of_nat (length (steps plan)) + 1) (JStr desc)
              "not_started" 1 None None.
Proof.
  intros Hget [Hl1 Hl2] Hidx. split.
  { unfold get_contextual_plan_reminder. rewrite Hidx.
    destruct (_ >=? _) eqn:E; [done|geb_lia]. }
  unfold add_step. rewrite Hget. eexists. split.
  { cbn [steps current_step_index]. rewrite length_app. cbn [length].
    by rewrite Nat.add_1_r. }
  split; [done|]. split; [done|].
  unfold get_contextual_plan_reminder.
  cbn [steps step_statuses step_findings current_step_index].
  rewrite Hidx, length_app. cbn [length].
  destruct (_ >=? _) eqn:E; [geb_lia|].
  rewrite !py_index_in_range by (rewrite length_app; cbn [length]; lia).
  rewrite Nat2Z.id.
  rewrite (list_lookup_middle (steps plan) [] (JStr desc)) by done.
  rewrite (list_lookup_middle (step_statuses plan) [] "not_started") by done.
  rewrite (list_lookup_middle (step_findings plan) [] "") by lia.
  rewrite py_slice_from_nonneg by lia. rewrite Nat2Z.id.
  rewrite (drop_app_length' (step_statuses plan)) by done.
  destruct (_ <? _) eqn:E'; [|reflexivity].
  exfalso. apply Z.ltb_lt in E'. lia.
Qed.

Section InOrder.
Variable json_loads : string -> option json.
Variable int_of_str : string -> option Z.

Lemma run_cons op ops st :
  run json_loads int_of_str (op :: ops) st
  = run json_loads int_of_str ops (fst (exec json_loads int_of_str op st)).
Proof. reflexivity. Qed.

(** Each call moves the focus one step on and marks the step it leaves as
    completed. *)
Lemma complete_current_run project times :
  forall t0 p st0 c,
    progressed c p ->
    within_ttl t0 times ->
    (c + length times <= length (steps p))%nat ->
    exists st' p' t',
      run json_loads int_of_str (complete_current project times)
          (set_plan t0 project p st0)
      = set_plan t' project p' st' /\
      progressed (c + length times) p' /\
      steps p' = steps p /\
      step_findings p' = step_findings p.
Proof.
  induction times as [|t rest IH]; intros t0 p st0 c Hprog Httl Hlen.
  { exists st0, p, t0. rewrite Nat.add_0_r.
    split; [reflexivity|]. split; [exact Hprog|]. by split. }
  destruct Httl as [Ht Httl]. cbn [length] in Hlen.
  change (complete_current project (t :: rest))
    with (UpdateStep t None (Some "completed") None project
          :: complete_current project rest).
  rewrite run_cons. cbn [exec].
  pose proof (get_plan_live t t0 project p st0 Ht) as Hget.
  destruct (PlanProps.update_step_cases int_of_str t None (Some "completed")
              None project _ _ p Hget (progressed_lengths c p Hprog))
    as [(_ & _ & Hbad)|(i & p1 & Hi & Hr & _ & Hres & Hst & Hss & Hfs & Hcur)].
  { exfalso. destruct Hprog as (_ & Hidx & _).
    apply (Hbad (Z.of_nat c)); [by cbn; rewrite Hidx|lia|done]. }
  destruct Hprog as (Hc & Hidx & Hstat & Hfl).
  cbn in Hi. injection Hi as <-. rewrite Hidx in *.
  cbn [str_truthy String.eqb negb default from_option id] in Hss, Hfs, Hcur.
  assert (Heqb : (Z.of_nat c =? Z.of_nat c) = true) by (apply Z.eqb_refl).
  rewrite Heqb in Hcur. cbn in Hcur.
  assert (Hp1 : progressed (S c) p1).
  { unfold progressed. rewrite Hst, Hfs. repeat split; try lia.
    rewrite Hss, Hstat, Nat2Z.id.
    replace (length (steps p) - c)%nat with (S (length (steps p) - S c)) by lia.
    apply insert_next_completed. }
  rewrite Hres. cbn [fst].
  destruct (IH t p1 (set_plan t0 project p st0) (S c) Hp1 Httl)
    as (st' & p' & t' & Hrun & Hp' & Hsteps & Hfind).
  { rewrite Hst. lia. }
  exists st', p', t'. rewrite Hrun. split; [done|]. cbn [length].
  replace (c + S (length rest))%nat with (S c + length rest)%nat by lia.
  split; [done|]. split; congruence.
Qed.

End InOrder.

Lemma check_completion_all_completed (p : Plan) :
  steps p <> [] -> step_statuses p <> [] ->
  Forall (fun s => s = "completed") (step_statuses p) ->
  check_plan_completion (Some p)
  = (true, FullyCompleted (length (step_statuses p))).
Proof.
  intros Hst Hss Hall. unfold check_plan_completion.
  destruct (step_statuses p) as [|s0 ss]; [done|].
  destruct (steps p) as [|x xs]; [done|].
  assert (Hc : count_status "completed" (s0 :: ss) = length (s0 :: ss)).
  { apply filter_length_all. eapply Forall_impl; [exact Hall|].
    intros s ->. reflexivity. }
  rewrite Hc, Nat.eqb_refl. done.
Qed.

(** Completing the steps of a fresh plan in order: after [k] calls of
    [update_step(status="completed")] without a step index, each within the
    time to live of the call before, the first [k] steps are completed and
    the focus is on step [k]; the reminder then focuses on step [k + 1]
    (counted from one) and counts [n - k] steps as remaining, the completed
    ones left out; after the last step the completion check answers [True]
    and the reminder reports that all steps are completed. *)
Theorem steps_completed_in_order
    (json_loads : string -> option json) (int_of_str : string -> option Z)
    (project : string) (times : list Z) (t0 : Z) (p : Plan) (st0 : Store) :
  let k := length times in
  let n := length (steps p) in
  progressed 0 p ->
  within_ttl t0 times ->
  (k <= n)%nat ->
  exists st' p' t',
    run json_loads int_of_str (complete_current project times)
        (set_plan t0 project p st0)
    = set_plan t' project p' st' /\
    steps p' = steps p /\
    current_step_index p' = Z.of_nat k /\
    step_statuses p'
    = replicate k "completed" ++ replicate (n - k) "not_started" /\
    (k = n -> n <> 0%nat ->
     check_plan_completion (Some p') = (true, FullyCompleted n) /\
     get_contextual_plan_reminder (Some p') = AllCompleted) /\
    (forall step, steps p !! k = Some step ->
     exists findings next,
       get_contextual_plan_reminder (Some p')
       = Focus (Z.of_nat k + 1) step "not_started" (n - k) findings next).
Proof.
  intros k n Hprog Httl Hk. subst k n.
  destruct (complete_current_run json_loads int_of_str project times
              t0 p st0 0%nat Hprog Httl Hk)
    as (st' & p' & t' & Hrun & Hp' & Hsteps & Hfind).
  cbn [Nat.add] in Hp'.
  destruct Hp' as (Hkn & Hidx & Hstat & Hfl). rewrite Hsteps in Hkn, Hstat, Hfl.
  exists st', p', t'.
  split; [done|]. split; [done|]. split; [done|]. split; [done|]. split.
  - intros Heq Hn. rewrite Heq in Hstat, Hidx.
    rewrite Nat.sub_diag in Hstat. cbn [replicate] in Hstat.
    rewrite app_nil_r in Hstat. split.
    + rewrite check_completion_all_completed.
      * by rewrite Hstat, length_replicate.
      * rewrite Hsteps. intros Hnil. apply Hn. by rewrite Hnil.
      * rewrite Hstat. by destruct (length (steps p)).
      * rewrite Hstat. apply Forall_replicate. done.
    + unfold get_contextual_plan_reminder. rewrite Hidx, Hsteps.
      destruct (_ >=? _) eqn:E; [done|geb_lia].
  - intros step Hstep.
    assert (Hlt : (length times < length (steps p))%nat)
      by (by apply lookup_lt_Some in Hstep).
    unfold get_contextual_plan_reminder. rewrite Hidx, Hsteps.
    destruct (_ >=? _) eqn:E; [geb_lia|].
    rewrite !py_index_in_range
      by (rewrite ?Hsteps, ?Hfl, ?Hstat, ?length_app, ?length_replicate; lia).
    rewrite Nat2Z.id, Hstep, Hstat.
    rewrite lookup_app_r by (by rewrite length_replicate).
    rewrite length_replicate, Nat.sub_diag.
    rewrite lookup_replicate_2 by lia.
    destruct (lookup_lt_is_Some_2 (step_findings p') (length times))
      as [fnd ->]; [lia|].
    rewrite py_slice_from_nonneg by lia. rewrite Nat2Z.id.
    rewrite drop_app_length' by (by rewrite length_replicate).
    rewrite count_open_not_started. by eexists _, _.
Qed.

(** *** The properties on the sample plans *)

Import PlanExamples PlanSamples.

Lemma failed_call_keeps_plan_witness :
  snd (get_plan 2 "proj"
         (fst (exec sample_loads no_int
                    (UpdateStep 2 (Some (IntArg 7)) None None "proj") store_AB)))
  = snd (get_plan 2 "proj" store_AB).
Proof.
  apply (failed_call_keeps_plan sample_loads no_int
           (UpdateStep 2 (Some (IntArg 7)) None None "proj") store_AB).
  reflexivity.
Defined.

Lemma other_projects_untouched_witness :
  fst (exec sample_loads no_int (MakePlan 2 plan_AB_text "other") store_AB)
    !! _make_key "proj"
  = store_AB !! _make_key "proj".
Proof.
  apply (other_projects_untouched sample_loads no_int
           (MakePlan 2 plan_AB_text "other") store_AB "proj").
  discriminate.
Defined.

Lemma plan_expires_after_an_hour_witness :
  get_plan 3000 "proj" (set_plan 0 "proj" plan_fresh ∅)
  = (set_plan 0 "proj" plan_fresh ∅, Some plan_fresh).
Proof.
  apply (proj1 (plan_expires_after_an_hour no_int 0 3000 "proj" plan_fresh ∅)).
  lia.
Defined.

Lemma stored_plan_shape_witness :
  steps plan_AB <> [] /\
  0 <= current_step_index plan_AB <= Z.of_nat (length (steps plan_AB)) /\
  Forall (fun s => s ∈ valid_statuses) (step_statuses plan_AB).
Proof.
  apply (stored_plan_shape sample_loads no_int
           [MakePlan 0 plan_AB_text "proj";
            UpdateStep 1 (Some (IntArg 0)) (Some "in_progress") (Some "old") "proj"]
           (_make_key "proj") (mkEntry plan_AB 3601)).
  vm_compute. reflexivity.
Defined.

Lemma reminder_on_stored_plan_witness :
  exists step status remaining findings next,
    get_contextual_plan_reminder (Some plan_AB)
      = Focus 1 step status remaining findings next /\
    steps plan_AB !! 0%nat = Some step /\
    step_statuses plan_AB !! 0%nat = Some status /\
    Z.of_nat remaining <= 2.
Proof.
  destruct (reminder_on_stored_plan sample_loads no_int
              [MakePlan 0 plan_AB_text "proj";
               UpdateStep 1 (Some (IntArg 0)) (Some "in_progress") (Some "old")
                          "proj"]
              (_make_key "proj") (mkEntry plan_AB 3601)) as [_ H].
  - vm_compute. reflexivity.
  - apply H. cbn. lia.
Defined.

Lemma make_plan_success_iff_witness :
  reports_success (snd (make_plan sample_loads 0 plan_AB_text "proj" ∅)) = true.
Proof.
  apply (proj1 (make_plan_success_iff sample_loads 0 plan_AB_text "proj" ∅)).
  split; [by vm_compute|].
  exists [("title", JStr "T"); ("steps", JArr [JStr "A"; JStr "B"])],
         (JStr "A"), [JStr "B"].
  repeat split.
Defined.

Lemma update_step_errors_witness :
  update_step no_int 2 (Some (IntArg 7)) None None "proj" store_AB
  = (store_AB, InvalidIndex 7 1).
Proof.
  destruct (update_step_errors no_int 2 (Some (IntArg 7)) None None "proj"
              store_AB store_AB plan_AB) as (_ & H & _).
  - vm_compute. reflexivity.
  - apply (H 7); [reflexivity|]. right. cbn. lia.
Defined.

Lemma add_step_reopens_completed_plan_witness :
  get_contextual_plan_reminder (Some plan_done) = AllCompleted /\
  exists plan',
    add_step 3 "C" "proj" store_done
      = (set_plan 3 "proj" plan' store_done, StepAdded "C" 3 3) /\
    steps plan' = steps plan_done ++ [JStr "C"] /\
    current_step_index plan' = current_step_index plan_done /\
    get_contextual_plan_reminder (Some plan')
      = Focus 3 (JStr "C") "not_started" 1 None None.
Proof.
  apply (add_step_reopens_completed_plan 3 "C" "proj" store_done store_done
           plan_done).
  - vm_compute. reflexivity.
  - split; reflexivity.
  - reflexivity.
Defined.

Lemma steps_completed_in_order_witness :
  exists st' p' t',
    run sample_loads no_int (complete_current "proj" [1; 2])
        (set_plan 0 "proj" plan_fresh ∅)
    = set_plan t' "proj" p' st' /\
    current_step_index p' = 2 /\
    check_plan_completion (Some p') = (true, FullyCompleted 2).
Proof.
  destruct (steps_completed_in_order sample_loads no_int "proj" [1; 2] 0
              plan_fresh ∅)
    as (st' & p' & t' & Hrun & _ & Hidx & _ & Hdone & _).
  - repeat split. cbn. lia.
  - cbn. lia.
  - cbn. lia.
  - exists st', p', t'. split; [exact Hrun|]. split; [exact Hidx|].
    apply Hdone; [reflexivity|discriminate].
Defined.

End PlanExtra.

(** ** Transcript store: further properties *)

Module StoreExtra.
Import MsgStore.

Lemma normalize_keeps_role ts m j :
  _normalize_message ts m = Some j ->
  exists c, _reconstruct_message j = Some {| role := role m; content := c |}.
Proof.
  unfold _normalize_message.
  destruct (content m) as [[| | |s|l|kv]|l]; cbn.
  - intros [= <-]. by eexists.
  - intros [= <-]. by eexists.
  - intros [= <-]. by eexists.
  - intros [= <-]. by eexists.
  - destruct (normalize_list (map Val l)); cbn; [|discriminate].
    intros [= <-]. by eexists.
  - intros [= <-]. by eexists.
  - destruct (normalize_list l); cbn; [|discriminate].
    intros [= <-]. by eexists.
Qed.

(** What [store_msgs] has written can always be loaded, also when it
    stopped on a message it could not normalise: the file then holds the
    messages before that one.  Each line comes back as one message with the
    role it was stored with. *)
Theorem stored_file_loads
    (ts : string) (msgs : list Message) (lines : list Line) (ok : bool) :
  store_msgs ts msgs = (lines, ok) ->
  exists loaded,
    load_msgs (Some lines) = Some loaded /\
    map role loaded = map role (take (length lines) msgs) /\
    (length lines <= length msgs)%nat /\
    (ok = true -> length lines = length msgs).
Proof.
  revert lines ok. induction msgs as [|m msgs IH]; intros lines ok.
  { cbn. intros [= <- <-]. by exists []. }
  cbn [store_msgs].
  destruct (_normalize_message ts m) as [j|] eqn:Hn.
  2:{ intros [= <- <-]. exists []. cbn. repeat split; [lia|discriminate]. }
  destruct (store_msgs ts msgs) as [lines' ok'].
  intros [= <- <-].
  destruct (IH lines' ok' eq_refl) as (loaded & Hld & Hroles & Hle & Hok).
  destruct (normalize_keeps_role ts m j Hn) as [c Hr].
  exists ({| role := role m; content := c |} :: loaded).
  cbn in Hld |- *. rewrite Hr. cbn. rewrite Hld. cbn.
  repeat split.
  - by rewrite Hroles.
  - lia.
  - intros H. by rewrite (Hok H).
Qed.

(** A message whose content is neither a string nor a list ([None], a
    number, a dict) is stored without content and comes back with the
    empty string as content. *)
Theorem missing_content_loads_as_empty
    (ts : string) (m : Message) (j0 : json) :
  content m = CJson j0 ->
  (forall s, j0 <> JStr s) ->
  (forall l, j0 <> JArr l) ->
  exists j,
    _normalize_message ts m = Some j /\
    _reconstruct_message j
    = Some {| role := role m; content := CJson (JStr "") |}.
Proof.
  intros Hc Hs Hl. unfold _normalize_message. rewrite Hc.
  destruct j0 as [| | |s|l|kv]; try (by eexists).
  - by destruct (Hs s).
  - by destruct (Hl l).
Qed.

Import LoopSamples.

(** [store_msgs] stops at the message without text; the line before it is
    in the file and loads. *)
Lemma stored_file_loads_witness :
  store_msgs "t0" broken_history
    = ([JsonLine (JObj [("role", JStr "user"); ("ts", JStr "t0");
                        ("content", JStr "hi")])], false) /\
  exists loaded,
    load_msgs (Some (fst (store_msgs "t0" broken_history))) = Some loaded /\
    map role loaded = [JStr "user"].
Proof.
  split; [reflexivity|].
  destruct (stored_file_loads "t0" broken_history
              (fst (store_msgs "t0" broken_history)) false)
    as (loaded & Hld & Hroles & _).
  - reflexivity.
  - exists loaded. split; [exact Hld|exact Hroles].
Defined.

Lemma missing_content_loads_as_empty_witness :
  exists j,
    _normalize_message "t0" contentless = Some j /\
    _reconstruct_message j
    = Some {| role := JStr "user"; content := CJson (JStr "") |}.
Proof.
  apply (missing_content_loads_as_empty "t0" contentless JNull).
  - reflexivity.
  - discriminate.
  - discriminate.
Defined.

End StoreExtra.

(** ** Agent loop: further properties *)

Module LoopExtra.
Import MsgStore Loop LoopView.

Lemma invocations_nil c : invocations [] c = [].
Proof. unfold invocations. induction c as [|i c IH]; [done|]. by cbn. Qed.

Lemma all_done_None (slots : list (option json)) (i : nat) :
  slots !! i = Some None -> all_done slots = None.
Proof.
  revert i. induction slots as [|[r|] slots IH]; intros i Hi.
  - by rewrite lookup_nil in Hi.
  - destruct i as [|i]; [discriminate|]. cbn in *. by rewrite (IH i Hi).
  - done.
Qed.

Lemma announce_privileged tb :
  name_in (tu_name tb) DANGEROUS_TOOLS = true ->
  announce tb = [Yield (EvToolCall (tu_name tb) (tu_input tb));
                 Yield (EvApprovalRequest (tu_name tb) (tu_input tb))].
Proof. intros H. unfold announce. by rewrite H. Qed.

Lemma announce_benign tb :
  name_in (tu_name tb) DANGEROUS_TOOLS = false ->
  announce tb = [Yield (EvToolCall (tu_name tb) (tu_input tb))].
Proof. intros H. unfold announce. by rewrite H. Qed.

(** The events of the approval scan up to the first refusal. *)
Lemma approvals_first_refusal ds blocks :
  forall j k tb,
    blocks !! k = Some tb ->
    name_in (tu_name tb) DANGEROUS_TOOLS = true ->
    truthy (ds (j + k)%nat) = false ->
    (forall k' tb', (k' < k)%nat -> blocks !! k' = Some tb' ->
                    name_in (tu_name tb') DANGEROUS_TOOLS = true ->
                    truthy (ds (j + k')%nat) = true) ->
    approvals ds j blocks = (flat_map announce (take (S k) blocks), false).
Proof.
  induction blocks as [|b rest IH]; intros j k tb Hk Hd Hno Hmin.
  { by rewrite lookup_nil in Hk. }
  destruct k as [|k].
  - cbn in Hk. injection Hk as ->. rewrite Nat.add_0_r in Hno.
    cbn [approvals take flat_map]. rewrite (announce_privileged tb Hd), Hd.
    by rewrite Hno.
  - cbn in Hk. cbn [approvals].
    rewrite (IH (S j) k tb Hk Hd).
    + cbn [take flat_map].
      destruct (name_in (tu_name b) DANGEROUS_TOOLS) eqn:Hb.
      * rewrite (announce_privileged b Hb).
        specialize (Hmin 0%nat b (Nat.lt_0_succ k) eq_refl Hb).
        rewrite Nat.add_0_r in Hmin. by rewrite Hmin.
      * by rewrite (announce_benign b Hb).
    + by rewrite Nat.add_succ_comm.
    + intros k' tb' Hlt Hk' Hd'. rewrite Nat.add_succ_comm.
      apply (Hmin (S k') tb'); [lia|done|done].
Qed.

Lemma approvals_all_announced ds blocks :
  forall j, snd (approvals ds j blocks) = true ->
            fst (approvals ds j blocks) = flat_map announce blocks.
Proof.
  induction blocks as [|b rest IH]; intros j; [done|].
  cbn [approvals flat_map]. specialize (IH (S j)).
  destruct (name_in (tu_name b) DANGEROUS_TOOLS) eqn:Hb.
  - rewrite (announce_privileged b Hb).
    destruct (truthy (ds j)); [|discriminate].
    destruct (approvals ds (S j) rest) as [acts ok]. cbn [fst snd] in *.
    intros H. by rewrite (IH H).
  - rewrite (announce_benign b Hb).
    destruct (approvals ds (S j) rest) as [acts ok]. cbn [fst snd] in *.
    intros H. by rewrite (IH H).
Qed.

(** When one model response carries several requests, the loop announces
    them in order and asks for approval of the privileged ones; it stops at
    the first refusal.  The requests before it have been announced (the
    benign ones without a question) but are not run, those after it are not
    even announced.  Without a refusal every request is announced. *)
Theorem refusal_stops_announcements
    (ds : nat -> json) (blocks : list ToolUse) :
  (forall k, refused ds blocks k ->
             (forall k', (k' < k)%nat -> ~ refused ds blocks k') ->
             approvals ds 0 blocks
             = (flat_map announce (take (S k) blocks), false)) /\
  ((forall k, ~ refused ds blocks k) ->
   approvals ds 0 blocks = (flat_map announce blocks, true)).
Proof.
  split.
  - intros k (tb & Hk & Hd & Hno) Hmin.
    apply (approvals_first_refusal ds blocks 0 k tb Hk Hd Hno).
    intros k' tb' Hlt Hk' Hd'. cbn.
    destruct (truthy (ds k')) eqn:E; [done|].
    exfalso. apply (Hmin k' Hlt). by exists tb'.
  - intros Hnone.
    assert (Hok : snd (approvals ds 0 blocks) = true).
    { apply LoopProps.approvals_true. intros j tb Hj Hd. cbn.
      destruct (truthy (ds j)) eqn:E; [done|].
      exfalso. apply (Hnone j). by exists tb. }
    pose proof (approvals_all_announced ds blocks 0 Hok) as Hacts.
    destruct (approvals ds 0 blocks) as [acts ok]. cbn [fst snd] in *.
    by subst.
Qed.

(** *** What a run adds *)

Lemma omap_field_tool_use (l : list ToolUse) :
  omap (block_field "tool_use" "id") (map tool_use_dict l)
  = map (fun tb => JStr (tu_id tb)) l.
Proof. induction l as [|tb l IH]; [done|]. cbn. by rewrite IH. Qed.

Lemma omap_field_tool_result (f : ToolUse -> json) (l : list ToolUse) :
  omap (block_field "tool_result" "tool_use_id")
       (map (fun tb => tool_result_dict tb (f tb)) l)
  = map (fun tb => JStr (tu_id tb)) l.
Proof. induction l as [|tb l IH]; [done|]. cbn. by rewrite IH. Qed.

(** *** Requests and results in the history *)

(** What [gather] returns is the return value of every task, in the order
    of the tasks. *)
Lemma gather_Some (tasks : list ToolUse) (run : ToolUse -> json)
    (c : list nat) (rs : list json) :
  gather tasks run c = Some rs -> rs = map run tasks.
Proof.
  unfold gather. intros Hg.
  assert (Heq : finished tasks run c = map (fun tb => Some (run tb)) tasks).
  { apply list_eq. intros i. rewrite list_lookup_fmap.
    destruct (tasks !! i) as [tb|] eqn:Hi; cbn.
    - destruct (finished tasks run c !! i) as [[r|]|] eqn:Hf.
      + unfold finished in Hf.
        rewrite LoopProps.finished_lookup in Hf by (by rewrite length_replicate).
        rewrite Hi in Hf. destruct (decide (i ∈ c)); [done|].
        apply lookup_replicate in Hf as [? _]. done.
      + by rewrite (all_done_None _ i Hf) in Hg.
      + apply lookup_ge_None in Hf. rewrite LoopProps.finished_length in Hf.
        apply lookup_lt_Some in Hi. lia.
    - apply lookup_ge_None. rewrite LoopProps.finished_length.
      by apply lookup_ge_None. }
  rewrite Heq, LoopProps.all_done_map in Hg. by injection Hg as <-.
Qed.

Lemma request_ids_requests (th : option (string * string)) (l : list ToolUse) :
  Budget.request_ids
    (assistant_msg (JArr (match th with
                          | Some (t, sg) => [thinking_dict t sg]
                          | None => []
                          end ++ map tool_use_dict l)))
  = map tu_id l.
Proof.
  unfold Budget.request_ids, Budget.ids_of. cbn [role assistant_msg is_str].
  cbn [Budget.blocks_of content assistant_msg]. rewrite omap_app.
  assert (Hl : forall l : list ToolUse,
             omap (fun b => match b with
                            | JObj d =>
                                if is_str (dict_get "type" d) "tool_use" then
                                  match dict_get "id" d with
                                  | Some (JStr i) => Some i
                                  | _ => None
                                  end
                                else None
                            | _ => None
                            end) (map tool_use_dict l) = map tu_id l).
  { clear. induction l as [|tb l IH]; [done|]. cbn. by rewrite IH. }
  rewrite Hl. by destruct th as [[? ?]|].
Qed.

Lemma result_ids_results (f : ToolUse -> json) (l : list ToolUse) :
  Budget.result_ids (user_msg (JArr (map (fun tb => tool_result_dict tb (f tb)) l)))
  = map tu_id l.
Proof.
  assert (Hl : omap (fun b => match b with
                               | JObj d =>
                                   if is_str (dict_get "type" d) "tool_result" then
                                     match dict_get "tool_use_id" d with
                                     | Some (JStr i) => Some i
                                     | _ => None
                                     end
                                   else None
                               | _ => None
                               end)
                    (map (fun tb => tool_result_dict tb (f tb)) l)
               = map tu_id l).
  { induction l as [|tb l IH]; [done|]. cbn. by rewrite IH. }
  exact Hl.
Qed.

(** The two messages of a batch form a valid piece of history. *)
Lemma batch_turn_valid (th : option (string * string)) (f : ToolUse -> json)
    (l : list ToolUse) :
  Budget.turn_valid
    [assistant_msg (JArr (match th with
                          | Some (t, sg) => [thinking_dict t sg]
                          | None => []
                          end ++ map tool_use_dict l));
     user_msg (JArr (map (fun tb => tool_result_dict tb (f tb)) l))] = true.
Proof.
  unfold Budget.turn_valid.
  rewrite !BudgetProps.turn_valid_from_cons.
  rewrite request_ids_requests, result_ids_results.
  by rewrite !BudgetProps.ids_within_refl.
Qed.

Section WithRuntime.
Variable token_cutter : list Message -> Z -> list Message.
Variable py_repr : json -> string.
Variable system_prompt : string.
Variable now_iso : string.

Local Abbreviation do_store := (do_store now_iso).
Local Abbreviation dispatch := (dispatch py_repr now_iso).
Local Abbreviation iteration := (iteration token_cutter py_repr now_iso).
Local Abbreviation finalize := (finalize now_iso).
Local Abbreviation run_loop := (run_loop token_cutter py_repr now_iso).
Local Abbreviation preamble := (preamble token_cutter).

(** A state that extends [st] by messages the loop may append. *)
Local Abbreviation extends st st' :=
  (exists more acts,
     msgs st' = msgs st ++ more /\
     trace st' = trace st ++ acts /\
     Forall message_ok more /\
     Forall loop_role more).

Lemma extends_refl st : extends st st.
Proof. exists [], []. by rewrite !app_nil_r. Qed.

Lemma extends_trans st1 st2 st3 :
  extends st1 st2 -> extends st2 st3 -> extends st1 st3.
Proof.
  intros (m1 & a1 & Hm1 & Ha1 & Hok1 & Hr1) (m2 & a2 & Hm2 & Ha2 & Hok2 & Hr2).
  exists (m1 ++ m2), (a1 ++ a2). rewrite Hm2, Ha2, Hm1, Ha1, !app_assoc.
  repeat split; by apply Forall_app.
Qed.

Lemma extends_emit acts st : extends st (emit acts st).
Proof. exists [], acts. cbn. by rewrite app_nil_r. Qed.

Lemma extends_store st : extends st (fst (do_store st)).
Proof.
  unfold Loop.do_store. destruct (store_msgs now_iso (msgs st)) as [lines ok].
  exists [], [StoreMsgs (msgs st)]. cbn. by rewrite app_nil_r.
Qed.

Lemma dispatch_extends tools t th tus st :
  extends st (step_state (dispatch tools t th tus st)).
Proof.
  unfold Loop.dispatch.
  destruct (approvals _ _ _) as [acts approved].
  destruct approved; cbn [negb].
  - destruct (gather _ _ _) as [results|].
    + destruct (List.filter _ tus) as [|tb0 local0] eqn:Hlocal.
      * cbn [step_state]. rewrite LoopProps.emit_emit. apply extends_emit.
      * unfold fold_results. cbn [step_state].
        eexists [_; _], _. cbn [append_msg emit msgs trace].
        split; [by rewrite <- app_assoc|]. split; [by rewrite <- !app_assoc|].
        split.
        -- constructor; [|constructor; [|constructor]].
           ++ unfold message_ok. cbn [content assistant_msg].
              apply Forall_app. split; [|apply LoopProps.tool_use_dicts_ok].
              destruct th as [[? ?]|]; [|constructor].
              constructor; [cbn; discriminate|constructor].
           ++ unfold message_ok. cbn [content user_msg].
              apply LoopProps.zip_blocks_ok. intros tb r. by eexists.
        -- constructor; [by left|]. constructor; [by right|constructor].
    + cbn [step_state]. rewrite LoopProps.emit_emit. apply extends_emit.
  - pose proof (extends_store (emit acts st)) as Hs.
    destruct (do_store (emit acts st)) as [st2 []]; cbn [fst step_state] in *.
    + eapply extends_trans; [apply extends_emit|].
      eapply extends_trans; [exact Hs|]. apply extends_emit.
    + eapply extends_trans; [apply extends_emit|].
      eapply extends_trans; [exact Hs|]. apply extends_emit.
Qed.

Lemma iteration_extends tools t st :
  extends st (step_state (iteration tools t st)).
Proof.
  unfold Loop.iteration.
  destruct (outcome t) as [c|ety etx].
  2:{ cbn [step_state]. rewrite LoopProps.emit_emit. apply extends_emit. }
  set (st1 := match first_thinking c with Some _ => _ | None => _ end).
  assert (H1 : extends st st1).
  { subst st1. destruct (first_thinking c) as [[? ?]|].
    - rewrite LoopProps.emit_emit. apply extends_emit.
    - apply extends_emit. }
  destruct (tool_uses c) as [|tu tus], (first_text c) as [txt|].
  - set (st2 := append_msg _ st1).
    assert (H2 : extends st1 st2).
    { exists [assistant_msg (JStr txt)], []. cbn. rewrite app_nil_r.
      repeat split; repeat constructor. }
    pose proof (extends_store st2) as Hs.
    destruct (do_store st2) as [st3 []]; cbn [fst step_state] in *;
      (eapply extends_trans; [exact H1|];
       eapply extends_trans; [exact H2|];
       eapply extends_trans; [exact Hs|]; apply extends_emit).
  - exact H1.
  - eapply extends_trans; [exact H1|].
    eapply extends_trans; [apply extends_emit|]. apply dispatch_extends.
  - eapply extends_trans; [exact H1|]. apply dispatch_extends.
Qed.

Lemma finalize_extends how st : extends st (run_state (finalize how st)).
Proof.
  unfold Loop.finalize. pose proof (extends_store st) as Hs.
  destruct (do_store st) as [st' []]; cbn [fst run_state] in *.
  - eapply extends_trans; [exact Hs|]. apply extends_emit.
  - exact Hs.
Qed.

Lemma run_loop_extends tools script :
  forall st, extends st (run_state (run_loop tools script st)).
Proof.
  induction script as [|t rest IH]; intros st; [apply extends_refl|].
  cbn [Loop.run_loop]. pose proof (iteration_extends tools t st) as Hstep.
  destruct (iteration tools t st) as [st'|st'|st'|st'|st'];
    cbn [step_state] in Hstep.
  - eapply extends_trans; [exact Hstep|]. apply IH.
  - eapply extends_trans; [exact Hstep|]. apply finalize_extends.
  - eapply extends_trans; [exact Hstep|]. apply finalize_extends.
  - exact Hstep.
  - exact Hstep.
Qed.

Lemma dispatch_turn_valid tools t th tus st :
  Budget.turn_valid (msgs st) = true ->
  Budget.turn_valid (msgs (step_state (dispatch tools t th tus st))) = true.
Proof.
  intros Hv. unfold Loop.dispatch.
  set (local := List.filter (fun tb => name_in (tu_name tb) tools) tus).
  destruct (approvals _ _ _) as [acts approved].
  destruct approved; cbn [negb].
  - destruct (gather _ _ _) as [results|] eqn:Hg; [|exact Hv].
    apply gather_Some in Hg. subst results.
    destruct local as [|tb0 local0] eqn:Hlocal; [exact Hv|]. rewrite <- Hlocal.
    unfold fold_results. rewrite LoopProps.zip_map_run, !map_map.
    cbn [step_state append_msg emit msgs]. rewrite <- app_assoc.
    apply BudgetProps.turn_valid_from_extend; [exact Hv|].
    apply (batch_turn_valid th
             (fun tb => result_content py_repr
                          (execute_tool_call tools (tool_return t) tb))).
  - unfold Loop.do_store. cbn [emit msgs].
    by destruct (store_msgs now_iso (msgs st)) as [lines []].
Qed.

Lemma iteration_turn_valid tools t st :
  Budget.turn_valid (msgs st) = true ->
  Budget.turn_valid (msgs (step_state (iteration tools t st))) = true.
Proof.
  intros Hv. unfold Loop.iteration.
  destruct (outcome t) as [c|ety etx]; [|exact Hv].
  set (st1 := match first_thinking c with Some _ => _ | None => _ end).
  assert (Hv1 : Budget.turn_valid (msgs st1) = true).
  { subst st1. by destruct (first_thinking c) as [[? ?]|]. }
  destruct (tool_uses c) as [|tu tus], (first_text c) as [txt|];
    try (by apply dispatch_turn_valid); [|exact Hv1].
  unfold Loop.do_store. cbn [append_msg msgs].
  assert (Hv2 : Budget.turn_valid (msgs st1 ++ [assistant_msg (JStr txt)]) = true).
  { by apply BudgetProps.turn_valid_from_extend. }
  by destruct (store_msgs now_iso _) as [lines []].
Qed.

Lemma run_loop_turn_valid tools script :
  forall st,
    Budget.turn_valid (msgs st) = true ->
    Budget.turn_valid (msgs (run_state (run_loop tools script st))) = true.
Proof.
  induction script as [|t rest IH]; intros st Hv; [exact Hv|].
  cbn [Loop.run_loop]. pose proof (iteration_turn_valid tools t st Hv) as Hstep.
  destruct (iteration tools t st) as [st'|st'|st'|st'|st'];
    cbn [step_state] in Hstep; try (by apply IH); try exact Hstep;
    unfold Loop.finalize, Loop.do_store;
    by destruct (store_msgs now_iso (msgs st')) as [lines []].
Qed.

End WithRuntime.

(** During a run the history only grows and every event stays: whatever
    the surroundings supply, the state a run ends or waits in has the
    starting history as a prefix, and what was added are assistant and user
    messages.  In particular the system reminder sent to the model is never
    stored in the history. *)
Theorem history_only_grows
    (token_cutter : list Message -> Z -> list Message)
    (py_repr : json -> string) (now_iso : string)
    (tools : list string) (script : list Turn) (st : State) :
  exists more acts,
    msgs (run_state (run_loop token_cutter py_repr now_iso tools script st))
      = msgs st ++ more /\
    trace (run_state (run_loop token_cutter py_repr now_iso tools script st))
      = trace st ++ acts /\
    Forall loop_role more.
Proof.
  destruct (run_loop_extends token_cutter py_repr now_iso tools script st)
    as (more & acts & Hm & Ha & _ & Hr).
  by exists more, acts.
Qed.

(** The loop keeps the pairing invariant of the data model: started on a
    history in which every request is answered in the next message, a run
    ends or waits with such a history, in which no request is without its
    result and no result without its request. *)
Theorem history_stays_paired
    (token_cutter : list Message -> Z -> list Message)
    (py_repr : json -> string) (now_iso : string)
    (tools : list string) (script : list Turn) (st : State) :
  Budget.turn_valid (msgs st) = true ->
  Budget.turn_valid
    (msgs (run_state (run_loop token_cutter py_repr now_iso tools script st)))
    = true /\
  Budget.paired
    (msgs (run_state (run_loop token_cutter py_repr now_iso tools script st))).
Proof.
  intros Hv.
  pose proof (run_loop_turn_valid token_cutter py_repr now_iso tools script st Hv)
    as Hfinal.
  split; [exact Hfinal|by apply BudgetProps.turn_valid_paired].
Qed.

(** *** How single turns end *)

(** A response with text and no tool request is the final answer: the run
    ends as [Done] without looking at anything further, the text is
    appended as an assistant message, stored, yielded as [final_text] (not
    as intermediate text) and the history is stored once more before
    [done]. *)
Theorem final_answer_ends_run
    (token_cutter : list Message -> Z -> list Message)
    (py_repr : json -> string) (now_iso : string)
    (tools : list string) (t : Turn) (rest : list Turn) (st : State)
    (c : list SdkBlock) (txt : string) :
  Forall message_ok (msgs st) ->
  outcome t = Responded c ->
  tool_uses c = [] ->
  first_text c = Some txt ->
  let history := msgs st ++ [assistant_msg (JStr txt)] in
  exists lines,
    store_msgs now_iso history = (lines, true) /\
    run_loop token_cutter py_repr now_iso tools (t :: rest) st
    = Finished Done
        {| msgs := history;
           transcript := Some lines;
           trace := trace st
                    ++ [ModelCall (trimmed_loop_msgs token_cutter t st)]
                    ++ match first_thinking c with
                       | Some (th, _) => [Yield (EvThinking th)]
                       | None => []
                       end
                    ++ [StoreMsgs history; Yield (EvFinalText txt);
                        StoreMsgs history; Yield EvDone] |}.
Proof.
  intros Hok Hc Htu Htxt history.
  assert (Hh : Forall message_ok history).
  { apply Forall_app. split; [done|]. by repeat constructor. }
  destruct (MsgStoreProps.store_load now_iso history Hh) as (lines & Hst & _).
  exists lines. split; [done|].
  cbn [Loop.run_loop]. unfold Loop.iteration. rewrite Hc, Htu, Htxt.
  unfold Loop.finalize, Loop.do_store.
  destruct (first_thinking c) as [[th sg]|];
    cbn [append_msg emit msgs trace transcript]; fold history;
    rewrite Hst; cbn [emit msgs trace transcript]; rewrite Hst;
    unfold emit; cbn [msgs trace transcript]; rewrite <- ?app_assoc;
    reflexivity.
Qed.


(** A response that asks only for tools the loop does not run itself
    (requests handled elsewhere), or that carries neither text nor
    requests, changes neither the history nor the transcript: the loop
    yields the reasoning and narration, if any, and calls the model
    again. *)
Theorem nothing_local_to_do
    (token_cutter : list Message -> Z -> list Message)
    (py_repr : json -> string) (now_iso : string)
    (tools : list string) (t : Turn) (st : State) (c : list SdkBlock) :
  outcome t = Responded c ->
  List.filter (fun tb => name_in (tu_name tb) tools) (tool_uses c) = [] ->
  (tool_uses c = [] -> first_text c = None) ->
  iteration token_cutter py_repr now_iso tools t st
  = Continue (emit (preamble token_cutter t st c) st).
Proof.
  intros Hc Hlocal Hnotext.
  destruct (tool_uses c) as [|tu tus] eqn:Htu.
  - unfold Loop.iteration, Loop.preamble. rewrite Hc, Htu, (Hnotext eq_refl).
    destruct (first_thinking c) as [[th sg]|];
      rewrite ?LoopProps.emit_emit, ?app_nil_r; reflexivity.
  - rewrite (LoopProps.iteration_dispatch token_cutter py_repr now_iso
               tools t st c Hc) by (by rewrite Htu).
    unfold Loop.dispatch. rewrite Htu, Hlocal. cbn [approvals negb].
    unfold gather, finished. cbn [length replicate].
    assert (Hfold : forall (cs : list nat) (slots : list (option json)),
              foldl (fun slots i =>
                       match @nil ToolUse !! i with
                       | Some tb => <[i := Some (execute_tool_call tools
                                                   (tool_return t) tb)]> slots
                       | None => slots
                       end) slots cs = slots).
    { induction cs as [|i cs IH]; intros slots; [done|].
      cbn [foldl]. rewrite lookup_nil. apply IH. }
    rewrite Hfold. cbn [all_done]. rewrite invocations_nil.
    rewrite !LoopProps.emit_emit, !app_nil_r. reflexivity.
Qed.

(** Nothing is folded into the history while an invocation of the batch
    has not finished: the loop keeps waiting and the history stays as it
    was. *)
Theorem unfinished_invocation_blocks_folding
    (token_cutter : list Message -> Z -> list Message)
    (py_repr : json -> string) (now_iso : string)
    (tools : list string) (t : Turn) (st : State) (c : list SdkBlock)
    (i : nat) :
  let local := List.filter (fun tb => name_in (tu_name tb) tools) (tool_uses c) in
  outcome t = Responded c ->
  (forall k tb, local !! k = Some tb ->
                name_in (tu_name tb) DANGEROUS_TOOLS = true ->
                truthy (decisions t k) = true) ->
  (i < length local)%nat ->
  i ∉ completion t ->
  exists st',
    iteration token_cutter py_repr now_iso tools t st = Awaiting st' /\
    msgs st' = msgs st /\
    transcript st' = transcript st.
Proof.
  intros local Hc Hall Hi Hnot.
  assert (Htu : tool_uses c <> []).
  { intros Hnil. subst local. rewrite Hnil in Hi. cbn in Hi. lia. }
  rewrite (LoopProps.iteration_dispatch token_cutter py_repr now_iso
             tools t st c Hc Htu).
  unfold Loop.dispatch. fold local.
  assert (Happ : snd (approvals (decisions t) 0 local) = true).
  { apply (proj2 (LoopProps.approvals_true _ _ _)). intros j tb Hj Hd.
    by apply (Hall j tb). }
  destruct (approvals (decisions t) 0 local) as [acts approved].
  cbn [snd] in Happ. subst approved. cbn [negb].
  assert (Hg : gather local (execute_tool_call tools (tool_return t))
                      (completion t) = None).
  { unfold gather. apply (all_done_None _ i). unfold finished.
    rewrite LoopProps.finished_lookup by (by rewrite length_replicate).
    destruct (decide (i ∈ completion t)); [done|].
    by apply lookup_replicate_2. }
  rewrite Hg. by eexists.
Qed.

(** The two messages a batch adds to the history are paired: the tool-use
    blocks of the assistant message and the tool-result blocks of the user
    message name the same request ids, in the same order, one result per
    request. *)
Theorem requests_and_results_paired
    (token_cutter : list Message -> Z -> list Message)
    (py_repr : json -> string) (now_iso : string)
    (tools : list string) (t : Turn) (st : State) (c : list SdkBlock) :
  let local := List.filter (fun tb => name_in (tu_name tb) tools) (tool_uses c) in
  outcome t = Responded c ->
  local <> [] ->
  (forall k tb, local !! k = Some tb ->
                name_in (tu_name tb) DANGEROUS_TOOLS = true ->
                truthy (decisions t k) = true) ->
  Permutation (completion t) (seq 0 (length local)) ->
  exists st' requests results,
    iteration token_cutter py_repr now_iso tools t st = Continue st' /\
    msgs st' = msgs st ++ [assistant_msg (JArr requests);
                           user_msg (JArr results)] /\
    omap (block_field "tool_use" "id") requests
      = map (fun tb => JStr (tu_id tb)) local /\
    omap (block_field "tool_result" "tool_use_id") results
      = map (fun tb => JStr (tu_id tb)) local /\
    length results = length local.
Proof.
  intros local Hc Hne Hall Hperm.
  assert (Htu : tool_uses c <> []).
  { intros Hnil. apply Hne. subst local. by rewrite Hnil. }
  rewrite (LoopProps.iteration_dispatch token_cutter py_repr now_iso
             tools t st c Hc Htu).
  rewrite (LoopProps.dispatch_approved py_repr now_iso tools t
             (first_thinking c) (tool_uses c)); try done.
  2:{ apply (proj2 (LoopProps.approvals_true _ _ _)). intros j tb Hj Hd.
      by apply (Hall j tb). }
  eexists _, _, _. split; [reflexivity|]. cbn [msgs emit]. split; [reflexivity|].
  fold local. repeat split.
  - rewrite omap_app, omap_field_tool_use.
    by destruct (first_thinking c) as [[? ?]|].
  - apply omap_field_tool_result.
  - by rewrite length_map.
Qed.

(** A query continues the conversation of the one before: started on the
    transcript a finished run has left, [claude_loop] takes up the stored
    history (thinking stripped, single text blocks unwrapped), adds no
    second system prompt, and appends the new query. *)
Theorem next_query_continues
    (token_cutter : list Message -> Z -> list Message)
    (py_repr : json -> string) (system_prompt now_iso : string)
    (query : string) (file : option (list Line)) (discovered : list string)
    (script : list Turn) (H0 : list Message) (how : Exit) (st : State)
    (query' : string) (discovered' : list string) :
  load_msgs file = Some H0 ->
  Forall message_ok H0 ->
  claude_loop token_cutter py_repr system_prompt now_iso
              query file discovered script = Some (Finished how st) ->
  claude_loop token_cutter py_repr system_prompt now_iso
              query' (transcript st) discovered' []
  = Some (Pending
            {| msgs := map strip_and_unwrap (msgs st) ++ [query_msg query'];
               transcript := transcript st;
               trace := [Yield (EvStatus "starting...")] |}).
Proof.
  intros Hload Hok Hrun. unfold claude_loop in Hrun. rewrite Hload in Hrun.
  cbn in Hrun. injection Hrun as Hrun.
  set (st0 := {| msgs := _; transcript := file; trace := _ |}) in Hrun.
  assert (Hok0 : Forall message_ok (msgs st0)).
  { subst st0. cbn [msgs]. apply Forall_app. split; [|by repeat constructor].
    destruct H0; [by repeat constructor|done]. }
  lazymatch type of Hrun with
  | Loop.run_loop _ _ _ ?tools _ _ = _ =>
      pose proof (LoopProps.run_loop_ok token_cutter py_repr now_iso
                    tools script st0 Hok0) as Hexit;
      pose proof (run_loop_extends token_cutter py_repr now_iso
                    tools script st0) as Hext
  end.
  rewrite Hrun in Hexit, Hext. cbn [run_state] in Hext.
  destruct Hexit as (_ & (lines & Htr & Hst) & _).
  destruct Hext as (more & acts & Hm & _ & Hmore & _).
  assert (Hokst : Forall message_ok (msgs st)).
  { rewrite Hm. by apply Forall_app. }
  destruct (MsgStoreProps.store_load now_iso (msgs st) Hokst)
    as (lines' & Hst' & Hld).
  rewrite Hst in Hst'. injection Hst' as <-.
  unfold claude_loop. rewrite Htr, Hld. cbn [mbind option_bind].
  assert (Hne : msgs st <> []).
  { rewrite Hm. subst st0. cbn [msgs]. by destruct H0. }
  destruct (msgs st) as [|m ms]; [done|]. reflexivity.
Qed.

(** *** The properties on sample turns *)

Import LoopExamples LoopSamples.

Lemma refusal_stops_announcements_witness :
  approvals deny_second 0 [read_a; bash_ls]
  = ([Yield (EvToolCall "read_" (tu_input read_a));
      Yield (EvToolCall "bash_" (tu_input bash_ls));
      Yield (EvApprovalRequest "bash_" (tu_input bash_ls))], false).
Proof.
  apply (proj1 (refusal_stops_announcements deny_second [read_a; bash_ls]) 1%nat).
  - exists bash_ls. repeat split.
  - intros k' Hk' (tb & Hk & Hd & _).
    destruct k' as [|k']; [|lia]. cbn in Hk. injection Hk as <-. discriminate.
Defined.

Lemma history_stays_paired_witness :
  Budget.request_ids
    (assistant_msg (JArr [thinking_dict "hm" "sig";
                          tool_use_dict read_a; tool_use_dict bash_ls]))
    = ["t1"; "t2"] /\
  Budget.paired
    (msgs (run_state (run_loop trim repr "t0" default_tools
                        [batch_turn approve_all [1; 0]%nat; final_turn] start))).
Proof.
  split; [reflexivity|].
  apply (history_stays_paired trim repr "t0" default_tools
           [batch_turn approve_all [1; 0]%nat; final_turn] start).
  reflexivity.
Defined.

Lemma final_answer_ends_run_witness :
  let history := msgs start ++ [assistant_msg (JStr "all good")] in
  exists lines,
    store_msgs "t0" history = (lines, true) /\
    run_loop trim repr "t0" default_tools [final_turn] start
    = Finished Done
        {| msgs := history;
           transcript := Some lines;
           trace := [ModelCall (trimmed_loop_msgs trim final_turn start);
                     StoreMsgs history; Yield (EvFinalText "all good");
                     StoreMsgs history; Yield EvDone] |}.
Proof.
  apply (final_answer_ends_run trim repr "t0" default_tools final_turn []
           start [TextBlock "all good"] "all good").
  - by repeat constructor.
  - reflexivity.
  - reflexivity.
  - reflexivity.
Defined.


Lemma nothing_local_to_do_witness :
  iteration trim repr "t0" default_tools remote_turn start
  = Continue (emit [ModelCall (trimmed_loop_msgs trim remote_turn start);
                    Yield (EvText "searching")] start).
Proof.
  apply (nothing_local_to_do trim repr "t0" default_tools remote_turn start
           remote_content).
  - reflexivity.
  - reflexivity.
  - discriminate.
Defined.

Lemma unfinished_invocation_blocks_folding_witness :
  exists st',
    iteration trim repr "t0" default_tools (batch_turn approve_all [0%nat]) start
      = Awaiting st' /\
    msgs st' = msgs start /\
    transcript st' = transcript start.
Proof.
  apply (unfinished_invocation_blocks_folding trim repr "t0" default_tools
           (batch_turn approve_all [0%nat]) start batch_content 1%nat).
  - reflexivity.
  - reflexivity.
  - cbn. lia.
  - intros H. apply list_elem_of_In in H. cbn in H.
    destruct H as [H|[]]. discriminate.
Defined.

Lemma requests_and_results_paired_witness :
  exists st' requests results,
    iteration trim repr "t0" default_tools
      (batch_turn approve_all [1; 0]%nat) start = Continue st' /\
    msgs st' = msgs start ++ [assistant_msg (JArr requests);
                              user_msg (JArr results)] /\
    omap (block_field "tool_use" "id") requests = [JStr "t1"; JStr "t2"] /\
    omap (block_field "tool_result" "tool_use_id") results
      = [JStr "t1"; JStr "t2"] /\
    length results = 2%nat.
Proof.
  apply (requests_and_results_paired trim repr "t0" default_tools
           (batch_turn approve_all [1; 0]%nat) start batch_content).
  - reflexivity.
  - discriminate.
  - reflexivity.
  - apply perm_swap.
Defined.

Lemma next_query_continues_witness :
  exists st,
    claude_loop trim repr "sys" "t0" "hi" None [] [final_turn]
      = Some (Finished Done st) /\
    claude_loop trim repr "sys" "t0" "and then?" (transcript st) [] []
    = Some (Pending
              {| msgs := map strip_and_unwrap (msgs st)
                         ++ [query_msg "and then?"];
                 transcript := transcript st;
                 trace := [Yield (EvStatus "starting...")] |}).
Proof.
  eexists. split; [vm_compute; reflexivity|].
  apply (next_query_continues trim repr "sys" "t0" "hi" None [] [final_turn]
           [] Done _ "and then?" []).
  - reflexivity.
  - constructor.
  - vm_compute. reflexivity.
Defined.

End LoopExtra.